(** * Banking transaction synthesis engine: embedding and verified properties

    Source files embedded here:
      - [src/generate_banking_csv.py]: [Transaction], [TransactionDataGenerator];
      - [src/api.py]: the same generator, [StreamConfig], [get_transactions_batch].
      - [src/api.py], module [Api]: the other handlers and [is_streaming];
      - [src/kinesis_producer.py], module [Producer]: [enrich_transaction]
        and the fraud count of the send loop (the calls to Kinesis and to
        the service over HTTP are not modelled);
      - [src/generate_banking_csv.py], module [Csv]: [generate_csv_file].

    The generator of [api.py] and the one of [generate_banking_csv.py] are the
    same code, except that the export version also passes the ground-truth
    labels [is_fraud] and [fraud_type] to the record constructor and reads the
    injection rate from [self.fraud_injection_rate] where the service reads
    [current_config.fraud_injection_rate].  The embedding keeps the labels;
    [model_dump] (the service's serializer) has only the fifteen public
    fields, [to_dict] (the export's serializer) has all seventeen.

    Modelling conventions:
      - Python [int] is [Z]; Python [float] is an exact rational [Q] (rounding
        is not modelled); [str] is [string]; the dict [recent_activity] is a
        [gmap string (list Q)];
      - the outside world (the two random generators and the two clocks) is a
        record of streams, threaded through a state monad together with the
        generator object, so that every draw and every clock reading happens
        in the order in which the source performs it. *)

From Stdlib Require Import ZArith QArith Lqa Lia List Sorted String Ascii.
From Stdlib Require Import Decimal DecimalString DecimalN.
From stdpp Require Import gmap strings.
Import ListNotations.

Local Open Scope Z_scope.
Local Open Scope string_scope.

(** ** The outside world *)

(** What [datetime.now()] yields, as far as the generator looks at it. *)
Record DateTime := mkDateTime {
  dt_hour : Z;
  dt_isoformat : string
}.

(** Streams of future observations.  [py_random] are the raw words of the
    [random] module's generator; [np_lognormal] are the results of
    [np.random.lognormal], which has a generator of its own; [time_time] and
    [datetime_now] are the readings of the two clocks. *)
Record World := mkWorld {
  py_random : nat -> Z;
  np_lognormal : nat -> Q -> Q -> Q;
  time_time : nat -> Q;
  datetime_now : nat -> DateTime
}.

Definition tl_stream {A} (s : nat -> A) : nat -> A := fun i => s (S i).

(** ** Data model *)

Record Transaction := mkTransaction {
  transaction_id : string;
  account_id : string;
  branch_id : Z;
  transaction_amount_vnd : Q;
  transaction_hour : Z;
  transaction_timestamp : string;
  location_city : string;
  device_id : string;
  biometric_failure_count : Z;
  transaction_frequency_5min : Z;
  total_loans_vnd : Q;
  num_transactions : Z;
  npl_flag : bool;
  total_deposits_vnd : Q;
  transaction_fees_vnd : Q;
  is_fraud : bool;
  fraud_type : option string
}.

Definition set_transaction_fees_vnd (t : Transaction) (fee : Q) : Transaction :=
  mkTransaction (transaction_id t) (account_id t) (branch_id t)
    (transaction_amount_vnd t) (transaction_hour t) (transaction_timestamp t)
    (location_city t) (device_id t) (biometric_failure_count t)
    (transaction_frequency_5min t) (total_loans_vnd t) (num_transactions t)
    (npl_flag t) (total_deposits_vnd t) fee (is_fraud t) (fraud_type t).

Record StreamConfig := mkStreamConfig {
  frequency_seconds : Q;
  fraud_injection_rate : Q;
  batch_size : Z
}.

Definition default_config : StreamConfig :=
  mkStreamConfig 1 (5 # 100) 1.

(** The mutable attributes of [TransactionDataGenerator]; the three pools are
    never assigned after [__init__] and are constants below. *)
Record Generator := mkGenerator {
  transaction_counter : Z;
  recent_activity : gmap string (list Q)
}.

Definition generator_init : Generator := mkGenerator 1 ∅.

(** ** State monad over the generator and the world *)

(** [self] is the generator object, [current_config] the service's global
    configuration (the export reads the same rate from an attribute that is
    set to the default [0.05] and never assigned again). *)
Record State := mkState {
  self : Generator;
  current_config : StreamConfig;
  world : World
}.

Definition M (A : Type) : Type := State -> A * State.

Definition ret {A} (a : A) : M A := fun s => (a, s).

Definition bind {A B} (m : M A) (k : A -> M B) : M B :=
  fun s => let (a, s') := m s in k a s'.

Declare Scope monad_scope.
Delimit Scope monad_scope with M.
Notation "'let*' x ':=' m 'in' k" := (bind m (fun x => k))
  (at level 10, x name, m at level 100, k at level 200) : monad_scope.
Notation "m ';;' k" := (bind m (fun _ => k))
  (at level 100, k at level 200, right associativity) : monad_scope.
Local Open Scope monad_scope.

Definition get_self : M Generator := fun s => (self s, s).
Definition put_self (g : Generator) : M unit :=
  fun s => (tt, mkState g (current_config s) (world s)).
Definition get_config : M StreamConfig := fun s => (current_config s, s).

(** [for _ in range(n): body], collecting the results in order. *)
Fixpoint for_range {A} (n : nat) (body : M A) : M (list A) :=
  match n with
  | O => ret []
  | S n' =>
      let* x := body in
      let* xs := for_range n' body in
      ret (x :: xs)
  end.

(** ** Library primitives *)

Definition Qltb (x y : Q) : bool := negb (Qle_bool y x).

(** Python's [max(a, b)]: the first argument unless the second is greater. *)
Definition py_max (a b : Q) : Q := if Qltb a b then b else a.

Definition next_word : M Z := fun s =>
  let w := world s in
  (py_random w 0%nat,
   mkState (self s) (current_config s)
     (mkWorld (tl_stream (py_random w)) (np_lognormal w) (time_time w)
        (datetime_now w))).

(** [random.random()]: a 53-bit integer divided by [2^53]. *)
Definition random_random : M Q :=
  let* r := next_word in
  ret (inject_Z (r mod 2 ^ 53) / inject_Z (2 ^ 53))%Q.

(** [random._randbelow(n)] for [n > 0]: some number below [n].  The word of
    the stream is reduced modulo [n], so that every number below [n] is the
    result for some stream. *)
Definition randbelow (n : Z) : M Z :=
  let* r := next_word in ret (r mod n).

(** [random.randint(a, b)], both ends included. *)
Definition random_randint (a b : Z) : M Z :=
  let* k := randbelow (b - a + 1) in ret (a + k).

(** [random.choice(seq)] on a non-empty sequence. *)
Definition random_choice {A} (d : A) (seq : list A) : M A :=
  let* k := randbelow (Z.of_nat (length seq)) in
  ret (nth (Z.to_nat k) seq d).

(** [random.uniform(a, b)] is [a + (b - a) * random()]. *)
Definition random_uniform (a b : Q) : M Q :=
  let* u := random_random in ret (a + (b - a) * u)%Q.

(** [itertools.accumulate] on weights. *)
Fixpoint accumulate (acc : Z) (ws : list Z) : list Z :=
  match ws with
  | [] => []
  | w :: ws' => (acc + w) :: accumulate (acc + w) ws'
  end.

(** [bisect.bisect(a, x, 0, hi)] on a sorted list: the number of the first
    [hi] entries that are not greater than [x]. *)
Fixpoint bisect (a : list Z) (x : Q) (hi : nat) : nat :=
  match hi, a with
  | S hi', c :: a' => if Qle_bool (inject_Z c) x then S (bisect a' x hi') else O
  | _, _ => O
  end.

(** [random.choices(population, weights=weights)[0]]. *)
Definition random_choices {A} (d : A) (population : list A) (weights : list Z)
  : M A :=
  let cum_weights := accumulate 0 weights in
  let total := List.last cum_weights 0 in
  let hi := (length population - 1)%nat in
  let* u := random_random in
  ret (nth (bisect cum_weights (u * inject_Z total)%Q hi) population d).

(** [np.random.lognormal(mean, sigma)]. *)
Definition np_random_lognormal (mean sigma : Q) : M Q := fun s =>
  let w := world s in
  (np_lognormal w 0%nat mean sigma,
   mkState (self s) (current_config s)
     (mkWorld (py_random w) (tl_stream (np_lognormal w)) (time_time w)
        (datetime_now w))).

(** [time.time()]. *)
Definition time_now : M Q := fun s =>
  let w := world s in
  (time_time w 0%nat,
   mkState (self s) (current_config s)
     (mkWorld (py_random w) (np_lognormal w) (tl_stream (time_time w))
        (datetime_now w))).

(** [datetime.now()]. *)
Definition datetime_dot_now : M DateTime := fun s =>
  let w := world s in
  (datetime_now w 0%nat,
   mkState (self s) (current_config s)
     (mkWorld (py_random w) (np_lognormal w) (time_time w)
        (tl_stream (datetime_now w)))).

(** *** Decimal formatting: [f"{n:0{width}d}"] and [f"{n}"] *)

Fixpoint zeros (n : nat) : string :=
  match n with
  | O => EmptyString
  | S n' => String "0" (zeros n')
  end.

(** Digits of a non-negative number, no sign, no padding. *)
Definition digits (n : Z) : string :=
  NilEmpty.string_of_uint (N.to_uint (Z.to_N n)).

(** [f"{n:0{width}d}"]: zeros are inserted after the sign up to [width]
    characters; longer numbers are not truncated. *)
Definition format_0d (width : nat) (n : Z) : string :=
  if (n <? 0)%Z
  then let ds := digits (- n) in
       String "-" (zeros (width - 1 - String.length ds) +:+ ds)
  else let ds := digits n in
       zeros (width - String.length ds) +:+ ds.

(** [f"{n}"]. *)
Definition format_d (n : Z) : string := format_0d 0 n.

(** ** The generator: constants of [__init__] *)

Definition cities : list string :=
  ["Ho Chi Minh City"; "Hanoi"; "Da Nang"; "Can Tho"; "Hai Phong"; "Bien Hoa";
   "Hue"; "Nha Trang"].

(** [range(a, b)]: the [b - a] numbers from [a] on. *)
Fixpoint range_from (a : Z) (n : nat) : list Z :=
  match n with
  | O => []
  | S n' => a :: range_from (a + 1) n'
  end.

Definition range (a b : Z) : list Z := range_from a (Z.to_nat (b - a)).

Definition account_pool : list string :=
  map (fun i => "ACC_" +:+ format_0d 6 i) (range 1000 5000).

Definition device_pool : list string :=
  map (fun i => "DEV_" +:+ format_0d 5 i) (range 10000 50000).

(** ** Account activity tracker *)

Definition get_activity (account_id : string) : M (list Q) := fun s =>
  (default [] (recent_activity (self s) !! account_id), s).

Definition set_activity (account_id : string) (l : list Q) : M unit :=
  let* g := get_self in
  put_self (mkGenerator (transaction_counter g)
              (<[account_id := l]> (recent_activity g))).

(** [if account_id not in self.recent_activity:
       self.recent_activity[account_id] = []]
    which is also what [setdefault(account_id, [])] does to the dict. *)
Definition ensure_entry (account_id : string) : M unit :=
  let* g := get_self in
  match recent_activity g !! account_id with
  | None => set_activity account_id []
  | Some _ => ret tt
  end.

Definition _update_account_activity (account_id : string) : M Z :=
  let* current_time := time_now in
  let window_start := (current_time - 300)%Q in
  ensure_entry account_id;;
  let* recorded := get_activity account_id in
  set_activity account_id
    (List.filter (fun t => Qltb window_start t) recorded);;
  let* kept := get_activity account_id in
  set_activity account_id (kept ++ [current_time]);;
  let* l := get_activity account_id in
  ret (Z.of_nat (length l)).

(** One iteration of the burst loops:
    [self.recent_activity.setdefault(account_id, []).append(
       time.time() - random.randint(1, 300))]. *)
Definition append_jittered (account_id : string) : M unit :=
  ensure_entry account_id;;
  let* t := time_now in
  let* j := random_randint 1 300 in
  let* l := get_activity account_id in
  set_activity account_id (l ++ [(t - inject_Z j)%Q]).

Definition txn_id : M string :=
  let* g := get_self in
  ret ("TXN_" +:+ format_0d 8 (transaction_counter g)).

(** ** Archetype samplers

    The keyword arguments of each [Transaction(...)] call are evaluated in the
    order in which they are written, which fixes the order of the draws. *)

Definition _generate_normal_transaction : M Transaction :=
  let* account_id := random_choice "" account_pool in
  let* current_time := datetime_dot_now in
  let* freq_5min := _update_account_activity account_id in
  let* tid := txn_id in
  let* branch := random_randint 1 10 in
  let* x_amount := np_random_lognormal (138 # 10) (12 # 10) in
  let* city := random_choice "" cities in
  let* device := random_choice "" device_pool in
  let* biometric := random_choices 0 [0; 1; 2] [85; 12; 3] in
  let* x_loans := np_random_lognormal 13 (15 # 10) in
  let* num := random_randint 50 500 in
  let* u_npl := random_random in
  let* x_deposits := np_random_lognormal (131 # 10) (14 # 10) in
  ret (mkTransaction tid account_id branch
         (py_max 10000 x_amount)
         (dt_hour current_time) (dt_isoformat current_time)
         city device biometric freq_5min
         (py_max 0 x_loans) num
         (Qltb u_npl (198 # 10000))
         (py_max 0 x_deposits)
         0 false None).

Definition _generate_money_laundering_transaction : M Transaction :=
  let* account_id := random_choice "" account_pool in
  let* current_time := datetime_dot_now in
  let* n_burst := random_randint 15 25 in
  for_range (Z.to_nat n_burst) (append_jittered account_id);;
  let* freq_5min := _update_account_activity account_id in
  let* tid := txn_id in
  let* branch := random_randint 1 10 in
  let* amount := random_uniform 300000000 1000000000 in
  let* hour := random_choice 0 [1; 2; 3; 23; 24] in
  let* city := random_choice "" cities in
  let* device := random_choice "" device_pool in
  let* biometric := random_choices 0 [0; 1] [70; 30] in
  let* x_loans := np_random_lognormal 13 (15 # 10) in
  let* num := random_randint 200 800 in
  let* u_npl := random_random in
  let* x_deposits := np_random_lognormal 14 (12 # 10) in
  ret (mkTransaction tid account_id branch amount hour
         (dt_isoformat current_time)
         city device biometric freq_5min
         (py_max 0 x_loans) num
         (Qltb u_npl (5 # 100))
         (py_max 0 x_deposits)
         0 true (Some "money_laundering")).

Definition _generate_account_takeover_transaction : M Transaction :=
  let* account_id := random_choice "" account_pool in
  let* current_time := datetime_dot_now in
  let* freq_5min := _update_account_activity account_id in
  let* k_device := random_randint 90000 99999 in
  let suspicious_device := "DEV_NEW_" +:+ format_d k_device in
  let* tid := txn_id in
  let* branch := random_randint 1 10 in
  let* amount := random_uniform 50000000 500000000 in
  let* hour := random_choice 0 [2; 3; 4; 22; 23] in
  let* city := random_choice "" (["Unknown"; "Foreign_Location"] ++ cities) in
  let* biometric := random_randint 3 5 in
  let* x_loans := np_random_lognormal 13 (15 # 10) in
  let* num := random_randint 100 300 in
  let* u_npl := random_random in
  let* x_deposits := np_random_lognormal (135 # 10) (13 # 10) in
  ret (mkTransaction tid account_id branch amount hour
         (dt_isoformat current_time)
         city suspicious_device biometric freq_5min
         (py_max 0 x_loans) num
         (Qltb u_npl (198 # 10000))
         (py_max 0 x_deposits)
         0 true (Some "account_takeover")).

Definition _generate_loan_fraud_transaction : M Transaction :=
  let* account_id := random_choice "" account_pool in
  let* current_time := datetime_dot_now in
  let* freq_5min := _update_account_activity account_id in
  let* tid := txn_id in
  let* branch := random_randint 1 10 in
  let* amount := random_uniform 100000000 800000000 in
  let* city := random_choice "" cities in
  let* k_device := random_randint 80000 89999 in
  let* biometric := random_choices 0 [0; 1; 2] [60; 25; 15] in
  let* loans := random_uniform 500000000 2000000000 in
  let* num := random_randint 1 50 in
  let* u_npl := random_random in
  let* x_deposits := np_random_lognormal 12 (18 # 10) in
  ret (mkTransaction tid account_id branch amount
         (dt_hour current_time) (dt_isoformat current_time)
         city ("DEV_NEW_" +:+ format_d k_device) biometric freq_5min
         loans num
         (Qltb u_npl (15 # 100))
         (py_max 0 x_deposits)
         0 true (Some "loan_fraud")).

Definition _generate_fee_manipulation_transaction : M Transaction :=
  let* account_id := random_choice "" account_pool in
  let* current_time := datetime_dot_now in
  let* n_burst := random_randint 12 20 in
  for_range (Z.to_nat n_burst) (append_jittered account_id);;
  let* freq_5min := _update_account_activity account_id in
  let* small_amount := random_uniform 10000 100000 in
  let* tid := txn_id in
  let* branch := random_randint 1 10 in
  let* city := random_choice "" cities in
  let* device := random_choice "" device_pool in
  let* biometric := random_choices 0 [0; 1] [90; 10] in
  let* x_loans := np_random_lognormal 13 (15 # 10) in
  let* num := random_randint 300 1000 in
  let* u_npl := random_random in
  let* x_deposits := np_random_lognormal (131 # 10) (14 # 10) in
  ret (mkTransaction tid account_id branch small_amount
         (dt_hour current_time) (dt_isoformat current_time)
         city device biometric freq_5min
         (py_max 0 x_loans) num
         (Qltb u_npl (198 # 10000))
         (py_max 0 x_deposits)
         (small_amount * (5 # 100))%Q true (Some "fee_manipulation")).

(** ** Synthesis engine *)

Definition fraud_types : list string :=
  ["money_laundering"; "account_takeover"; "loan_fraud"; "fee_manipulation"].

(** The fee finalizer:
    [if transaction.transaction_fees_vnd == 0:
       transaction.transaction_fees_vnd = transaction.total_deposits_vnd * 0.001]. *)
Definition finalize_fees (transaction : Transaction) : Transaction :=
  if Qeq_bool (transaction_fees_vnd transaction) 0
  then set_transaction_fees_vnd transaction
         (total_deposits_vnd transaction * (1 # 1000))%Q
  else transaction.

Definition increment_counter : M unit :=
  let* g := get_self in
  put_self (mkGenerator (transaction_counter g + 1) (recent_activity g)).

Definition generate_transaction : M Transaction :=
  let* u := random_random in
  let* cfg := get_config in
  let* transaction :=
    if Qltb u (fraud_injection_rate cfg)
    then
      let* fraud_type := random_choices "" fraud_types [30; 25; 25; 20] in
      if String.eqb fraud_type "money_laundering"
      then _generate_money_laundering_transaction
      else if String.eqb fraud_type "account_takeover"
      then _generate_account_takeover_transaction
      else if String.eqb fraud_type "loan_fraud"
      then _generate_loan_fraud_transaction
      else _generate_fee_manipulation_transaction
    else _generate_normal_transaction in
  let transaction := finalize_fees transaction in
  increment_counter;;
  ret transaction.

(** ** Serializers and the batch endpoint of the service *)

Inductive pyvalue :=
| PyStr (s : string)
| PyInt (n : Z)
| PyFloat (x : Q)
| PyBool (b : bool).

(** [transaction.model_dump()] in [api.py]: the fifteen declared fields. *)
Definition model_dump (t : Transaction) : list (string * pyvalue) :=
  [("transaction_id", PyStr (transaction_id t));
   ("account_id", PyStr (account_id t));
   ("branch_id", PyInt (branch_id t));
   ("transaction_amount_vnd", PyFloat (transaction_amount_vnd t));
   ("transaction_hour", PyInt (transaction_hour t));
   ("transaction_timestamp", PyStr (transaction_timestamp t));
   ("location_city", PyStr (location_city t));
   ("device_id", PyStr (device_id t));
   ("biometric_failure_count", PyInt (biometric_failure_count t));
   ("transaction_frequency_5min", PyInt (transaction_frequency_5min t));
   ("total_loans_vnd", PyFloat (total_loans_vnd t));
   ("num_transactions", PyInt (num_transactions t));
   ("npl_flag", PyBool (npl_flag t));
   ("total_deposits_vnd", PyFloat (total_deposits_vnd t));
   ("transaction_fees_vnd", PyFloat (transaction_fees_vnd t))].

(** [Transaction.to_dict] in [generate_banking_csv.py]. *)
Definition to_dict (t : Transaction) : list (string * pyvalue) :=
  model_dump t ++
  [("is_fraud", PyBool (is_fraud t));
   ("fraud_type", PyStr (match fraud_type t with
                         | Some f => if String.eqb f "" then "normal" else f
                         | None => "normal"
                         end))].

Inductive HTTPResult (A : Type) :=
| HTTPException (status_code : Z) (detail : string)
| HTTPOk (body : A).
Arguments HTTPException {A} _ _.
Arguments HTTPOk {A} _.

Record BatchResponse := mkBatchResponse {
  resp_transactions : list (list (string * pyvalue));
  resp_count : Z;
  resp_timestamp : string
}.

Definition get_transactions_batch (count : Z)
  : M (HTTPResult BatchResponse) :=
  if (count >? 1000)%Z
  then ret (HTTPException 400 "Maximum 1000 transactions per request")
  else
    let* transactions :=
      for_range (Z.to_nat count)
        (let* transaction := generate_transaction in
         ret (model_dump transaction)) in
    let* now := datetime_dot_now in
    ret (HTTPOk (mkBatchResponse transactions
                   (Z.of_nat (length transactions)) (dt_isoformat now))).

(** ** The other endpoints of the service

    The handlers of [api.py] besides the batch endpoint.  What they log is
    left out; the module-level [is_streaming] joins the state. *)

Module Api.

(** [StreamConfig.model_dump()]. *)
Definition config_dump (c : StreamConfig) : list (string * pyvalue) :=
  [("frequency_seconds", PyFloat (frequency_seconds c));
   ("fraud_injection_rate", PyFloat (fraud_injection_rate c));
   ("batch_size", PyInt (batch_size c))].

(** The module-level variables: [is_streaming], and [generator] and
    [current_config] in [state]. *)
Record Service := mkService {
  is_streaming : bool;
  state : State
}.

(** The module as imported: [current_config = StreamConfig()],
    [is_streaming = False], [generator = TransactionDataGenerator()]. *)
Definition service_init (w : World) : Service :=
  mkService false (mkState generator_init default_config w).

Definition Handler (A : Type) : Type := Service -> A * Service.

(** A computation of the generator run inside a handler. *)
Definition lift {A} (m : M A) : Handler A := fun sv =>
  (fst (m (state sv)), mkService (is_streaming sv) (snd (m (state sv)))).

Record RootResponse := mkRootResponse {
  root_message : string;
  root_description : string;
  root_status : string;
  root_streaming : bool;
  root_config : list (string * pyvalue)
}.

Definition root : Handler RootResponse := fun sv =>
  (mkRootResponse "Banking Transaction Data API"
     "Sends raw transaction data for fraud detection testing"
     "active" (is_streaming sv) (config_dump (current_config (state sv))),
   sv).

Record MessageResponse := mkMessageResponse {
  msg_message : string;
  msg_config : list (string * pyvalue)
}.

(** [POST /config]: [current_config = config]. *)
Definition update_config (config : StreamConfig) : Handler MessageResponse :=
  fun sv =>
    (mkMessageResponse "Configuration updated successfully"
       (config_dump config),
     mkService (is_streaming sv)
       (mkState (self (state sv)) config (world (state sv)))).

(** [GET /transaction]. *)
Definition get_single_transaction : Handler (list (string * pyvalue)) :=
  lift (let* transaction := generate_transaction in
        ret (model_dump transaction)).

(** [GET /transactions/{count}]. *)
Definition get_transactions_batch (count : Z)
  : Handler (HTTPResult BatchResponse) :=
  lift (get_transactions_batch count).

(** [POST /start]. *)
Definition start_streaming : Handler (HTTPResult MessageResponse) :=
  fun sv =>
    if is_streaming sv
    then (HTTPException 400 "Stream is already running", sv)
    else (HTTPOk (mkMessageResponse "Transaction streaming started"
                    (config_dump (current_config (state sv)))),
          mkService true (state sv)).

(** [POST /stop]. *)
Definition stop_streaming : Handler string := fun sv =>
  ("Transaction streaming stopped", mkService false (state sv)).

Record StatusResponse := mkStatusResponse {
  status_streaming : bool;
  status_transactions_generated : Z;
  status_active_accounts : Z;
  status_config : list (string * pyvalue)
}.

(** [GET /status]. *)
Definition get_status : Handler StatusResponse := fun sv =>
  (mkStatusResponse (is_streaming sv)
     (transaction_counter (self (state sv)) - 1)
     (Z.of_nat (size (recent_activity (self (state sv)))))
     (config_dump (current_config (state sv))),
   sv).

Record DataPacket := mkDataPacket {
  packet_timestamp : string;
  packet_transactions : list (list (string * pyvalue))
}.

(** [generate_stream] of [GET /stream] runs in turns: it gives way to the
    other handlers only where it yields a packet and where it sleeps, so
    the loop test, the batch and the packet of one turn happen together.
    It starts with [is_streaming = True]. *)
Definition stream_begin : Handler unit := fun sv =>
  (tt, mkService true (state sv)).

(** One turn of [while is_streaming]: the packet that is yielded, or [None]
    when the test fails and [finally] clears the flag. *)
Definition stream_turn : Handler (option DataPacket) := fun sv =>
  if is_streaming sv
  then lift (let* cfg := get_config in
             let* transactions :=
               for_range (Z.to_nat (batch_size cfg))
                 (let* transaction := generate_transaction in
                  ret (model_dump transaction)) in
             let* now := datetime_dot_now in
             ret (Some (mkDataPacket (dt_isoformat now) transactions))) sv
  else (None, mkService false (state sv)).

(** [GET /config].  It comes last because it has the name of the monad's
    reader of the configuration, which [stream_turn] uses above. *)
Definition get_config : Handler (list (string * pyvalue)) := fun sv =>
  (config_dump (current_config (state sv)), sv).

End Api.

(** ** The relay: [kinesis_producer.py]

    A transaction is here the dict decoded from the service's JSON; its
    values are the scalars of [pyvalue]. *)

Module Producer.

Definition dict : Type := list (string * pyvalue).

(** [d.get(k)] as an option, the first entry under [k] (keys of a dict are
    distinct). *)
Fixpoint dict_get (k : string) (d : dict) : option pyvalue :=
  match d with
  | [] => None
  | (k', v) :: d' => if String.eqb k k' then Some v else dict_get k d'
  end.

(** [d[k] = v]: the value is replaced where the key is, a new key goes
    last. *)
Fixpoint dict_set (k : string) (v : pyvalue) (d : dict) : dict :=
  match d with
  | [] => [(k, v)]
  | (k', v') :: d' =>
      if String.eqb k k' then (k', v) :: d' else (k', v') :: dict_set k v d'
  end.

Inductive exn :=
| KeyError (key : string)
| TypeError.

Inductive result (A : Type) :=
| Raise (e : exn)
| Return (a : A).
Arguments Raise {A} _.
Arguments Return {A} _.

Definition result_bind {A B} (r : result A) (k : A -> result B) : result B :=
  match r with
  | Raise e => Raise e
  | Return a => k a
  end.

Declare Scope result_scope.
Delimit Scope result_scope with result.
Notation "'let*' x ':=' m 'in' k" := (result_bind m (fun x => k))
  (at level 10, x name, m at level 100, k at level 200) : result_scope.

(** [d[k]]. *)
Definition subscript (d : dict) (k : string) : result pyvalue :=
  match dict_get k d with
  | Some v => Return v
  | None => Raise (KeyError k)
  end.

(** [d.get(k, default)]. *)
Definition get_or (d : dict) (k : string) (default : pyvalue) : pyvalue :=
  match dict_get k d with
  | Some v => v
  | None => default
  end.

(** [v > n] for an [int] literal [n]: numbers compare by value, [bool] is
    an [int], a [str] raises. *)
Definition py_gt (v : pyvalue) (n : Z) : result bool :=
  match v with
  | PyInt x => Return (n <? x)%Z
  | PyFloat x => Return (Qltb (inject_Z n) x)
  | PyBool b => Return (n <? (if b then 1 else 0))%Z
  | PyStr _ => Raise TypeError
  end.

(** [v == n] for an [int] literal [n]. *)
Definition py_eq (v : pyvalue) (n : Z) : bool :=
  match v with
  | PyInt x => (x =? n)%Z
  | PyFloat x => Qeq_bool x (inject_Z n)
  | PyBool b => ((if b then 1 else 0) =? n)%Z
  | PyStr _ => false
  end.

(** [v in [n1, n2, ...]]. *)
Definition py_in (v : pyvalue) (l : list Z) : bool :=
  existsb (py_eq v) l.

(** [needle in hay] on strings: [needle] occurs somewhere in [hay]. *)
Fixpoint str_in (needle hay : string) : bool :=
  String.prefix needle hay
  || match hay with
     | EmptyString => false
     | String _ hay' => str_in needle hay'
     end.

(** [needle in v]: a number is not iterable. *)
Definition py_str_in (needle : string) (v : pyvalue) : result bool :=
  match v with
  | PyStr s => Return (str_in needle s)
  | _ => Raise TypeError
  end.

(** The attributes of [VPBankKinesisProducer] that [__init__] reads from
    the environment. *)
Record VPBankKinesisProducer := mkProducer {
  region : string;
  stream_name : string;
  api_url : string
}.

(** [enrich_transaction]; [now] is [datetime.now(UTC).isoformat()].  The
    entries of the dict display are evaluated in the order in which they
    are written. *)
Definition enrich_transaction (producer : VPBankKinesisProducer)
  (now : string) (transaction : dict) : result dict :=
  (let enriched := transaction in
   let enriched := dict_set "kinesis_timestamp" (PyStr now) enriched in
   let enriched :=
     dict_set "source" (PyStr "vpbank_transaction_api") enriched in
   let enriched := dict_set "region" (PyStr (region producer)) enriched in
   let enriched :=
     dict_set "stream_name" (PyStr (stream_name producer)) enriched in
   let* amount := subscript transaction "transaction_amount_vnd" in
   let* high_amount := py_gt amount 300000000 in
   let enriched := dict_set "high_amount_flag" (PyBool high_amount) enriched in
   let* hour := subscript transaction "transaction_hour" in
   let off_hours := py_in hour [1; 2; 3; 22; 23; 24] in
   let enriched := dict_set "off_hours_flag" (PyBool off_hours) enriched in
   let* suspicious_device :=
     py_str_in "DEV_NEW_" (get_or transaction "device_id" (PyStr "")) in
   let enriched :=
     dict_set "suspicious_device_flag" (PyBool suspicious_device) enriched in
   let* high_frequency :=
     py_gt (get_or transaction "transaction_frequency_5min" (PyInt 0)) 10 in
   let enriched :=
     dict_set "high_frequency_flag" (PyBool high_frequency) enriched in
   Return enriched)%result.

(** The truth value of [v] in a condition. *)
Definition truthy (v : pyvalue) : bool :=
  match v with
  | PyStr s => negb (String.eqb s "")
  | PyInt n => negb (n =? 0)%Z
  | PyFloat x => negb (Qeq_bool x 0)
  | PyBool b => b
  end.

(** [sum(1 for t in transactions if t.get('is_fraud', False))], the fraud
    count of [send_batch_transactions] and of [start_streaming]. *)
Definition fraud_count (transactions : list dict) : Z :=
  Z.of_nat
    (length (List.filter (fun t => truthy (get_or t "is_fraud" (PyBool false)))
               transactions)).

End Producer.

(** ** The export: [generate_csv_file]

    The file is the header and the rows that [csv.DictWriter] is given,
    cell by cell; what is printed is kept line by line. *)

Module Csv.

Definition fieldnames : list string :=
  ["transaction_id"; "account_id"; "branch_id"; "transaction_amount_vnd";
   "transaction_hour"; "transaction_timestamp"; "location_city"; "device_id";
   "biometric_failure_count"; "transaction_frequency_5min"; "total_loans_vnd";
   "num_transactions"; "npl_flag"; "total_deposits_vnd";
   "transaction_fees_vnd"; "is_fraud"; "fraud_type"].

(** [DictWriter.writerow(rowdict)]: [ValueError] ([None]) when the dict has
    a key that is not a field name; else one cell per field name, the empty
    string where the dict has no such key. *)
Definition writerow (rowdict : Producer.dict) : option (list pyvalue) :=
  if forallb (fun kv => existsb (String.eqb (fst kv)) fieldnames) rowdict
  then Some (map (fun k => Producer.get_or rowdict k (PyStr "")) fieldnames)
  else None.

Inductive Printed :=
| Generating (num_transactions : Z)
| Progress (generated : Z) (num_transactions : Z)
| Created (filename : string) (num_transactions : Z)
| SummaryTitle
| SummaryTotal (num_transactions : Z)
| SummaryFraud (fraud_count : Z) (percent : Q)
| SummaryNormal (normal_count : Z).

Record CsvFile := mkCsvFile {
  csv_header : list string;
  csv_rows : list (list pyvalue)
}.

(** The body of [for i in range(num_transactions)] for the values [indices]
    of [i]: the rows written and the progress lines printed, or [None] when
    [writerow] raises. *)
Fixpoint write_rows (num_transactions : Z) (indices : list Z)
  : M (option (list (list pyvalue) * list Printed)) :=
  match indices with
  | [] => ret (Some ([], []))
  | i :: indices' =>
      let* transaction := generate_transaction in
      match writerow (to_dict transaction) with
      | None => ret None
      | Some row =>
          let progress :=
            if ((i + 1) mod 100 =? 0)%Z
            then [Progress (i + 1) num_transactions]
            else [] in
          let* rest := write_rows num_transactions indices' in
          ret (option_map
                 (fun r => (row :: fst r, (progress ++ snd r)%list)) rest)
      end
  end.

(** [int(x)]: truncation towards zero. *)
Definition py_int (x : Q) : Z := Z.quot (Qnum x) (Zpos (Qden x)).

(** [generate_csv_file(num_transactions, filename)] in the world [w]: the
    file and the lines printed, and the world afterwards.  The generator
    is constructed inside, with its injection rate [0.05]. *)
Definition generate_csv_file (num_transactions : Z) (filename : string)
  (w : World) : option (CsvFile * list Printed) * World :=
  let generator := mkState generator_init default_config w in
  let (written, generator') :=
    write_rows num_transactions
      (range 0 num_transactions) generator in
  (match written with
   | None => None
   | Some (rows, progress) =>
       let rate := fraud_injection_rate (current_config generator') in
       let fraud_count := py_int (inject_Z num_transactions * rate) in
       Some (mkCsvFile fieldnames rows,
             ([Generating num_transactions] ++ progress
              ++ [Created filename num_transactions;
                  SummaryTitle;
                  SummaryTotal num_transactions;
                  SummaryFraud fraud_count (rate * 100);
                  SummaryNormal (num_transactions - fraud_count)])%list)
   end, world generator').

End Csv.

(** * Vocabulary of the specification *)

(** ** The tracker *)

(** The world after one reading of [time.time()]. *)
Definition tick (w : World) : World :=
  mkWorld (py_random w) (np_lognormal w) (tl_stream (time_time w))
    (datetime_now w).

(** The window of [account_id] after a tracker call at instant [now]. *)
Definition pruned_window (now : Q) (recorded : list Q) : list Q :=
  List.filter (fun t => Qltb (now - 300) t) recorded ++ [now].

(** ** Concrete worlds and states *)

Definition noon : DateTime := mkDateTime 12 "2025-01-01T12:00:00".

(** A world whose clock advances [step] seconds per reading, whose raw random
    words are the entries of [words] (then zero), and whose lognormal draws
    are all [x]. *)
Definition world_of (words : list Z) (x : Q) (step : Q) : World :=
  mkWorld (fun i => nth i words 0)
          (fun _ _ _ => x)
          (fun i => 1000000 + step * inject_Z (Z.of_nat i))%Q
          (fun _ => noon).

(** A freshly constructed generator under [cfg] in the world [w]. *)
Definition state_of (cfg : StreamConfig) (w : World) : State :=
  mkState generator_init cfg w.

(** ** A program logic for the samplers *)

(** From any state satisfying [P], [m] ends with a result and a state
    related by [R]. *)
Definition hoare {A} (P : State -> Prop) (m : M A) (R : A -> State -> Prop)
  : Prop :=
  forall s, P s -> R (fst (m s)) (snd (m s)).

(** The invariant of the samplers: a property [W] of the world, the counter
    [c] and the configuration [cfg] in force. *)
Definition Inv (W : World -> Prop) (c : Z) (cfg : StreamConfig) (s : State)
  : Prop :=
  W (world s) /\ transaction_counter (self s) = c /\ current_config s = cfg.

(** [m] keeps the invariant and its result satisfies [R]. *)
Definition yields (W : World -> Prop) (c : Z) (cfg : StreamConfig) {A}
  (m : M A) (R : A -> Prop) : Prop :=
  hoare (Inv W c cfg) m (fun a s' => Inv W c cfg s' /\ R a).

(** What each sampler returns; [V] is what is known of lognormal draws. *)
Definition labelled (V : Q -> Prop) (c : Z) (label : option string)
  (t : Transaction) : Prop :=
  transaction_id t = "TXN_" +:+ format_0d 8 c
  /\ (exists x, V x /\ total_deposits_vnd t = py_max 0 x)
  /\ fraud_type t = label
  /\ is_fraud t = match label with Some _ => true | None => false end.

Definition normal_post (V : Q -> Prop) (c : Z) (t : Transaction) : Prop :=
  labelled V c None t
  /\ transaction_fees_vnd t = 0%Q
  /\ In (device_id t) device_pool.

Definition money_laundering_post (V : Q -> Prop) (c : Z) (t : Transaction)
  : Prop :=
  labelled V c (Some "money_laundering") t
  /\ transaction_fees_vnd t = 0%Q
  /\ (300000000 <= transaction_amount_vnd t < 1000000000)%Q
  /\ In (transaction_hour t) [1; 2; 3; 23; 24]
  /\ In (device_id t) device_pool.

Definition account_takeover_post (V : Q -> Prop) (c : Z) (t : Transaction)
  : Prop :=
  labelled V c (Some "account_takeover") t
  /\ transaction_fees_vnd t = 0%Q
  /\ exists k, 90000 <= k <= 99999
               /\ device_id t = "DEV_NEW_" +:+ format_d k.

Definition loan_fraud_post (V : Q -> Prop) (c : Z) (t : Transaction)
  : Prop :=
  labelled V c (Some "loan_fraud") t
  /\ transaction_fees_vnd t = 0%Q
  /\ exists k, 80000 <= k <= 89999
               /\ device_id t = "DEV_NEW_" +:+ format_d k.

Definition fee_manipulation_post (V : Q -> Prop) (c : Z) (t : Transaction)
  : Prop :=
  labelled V c (Some "fee_manipulation") t
  /\ (10000 <= transaction_amount_vnd t < 100000)%Q
  /\ transaction_fees_vnd t = (transaction_amount_vnd t * (5 # 100))%Q
  /\ In (device_id t) device_pool.

(** A record as one of the five samplers returns it. *)
Definition sampled (V : Q -> Prop) (c : Z) (t : Transaction) : Prop :=
  normal_post V c t \/ money_laundering_post V c t
  \/ account_takeover_post V c t \/ loan_fraud_post V c t
  \/ fee_manipulation_post V c t.

(** ** Identifiers *)

(** [int(s)] on a decimal numeral with an optional sign. *)
Definition read_decimal (s : string) : option Z :=
  option_map Z.of_int (NilEmpty.int_of_string s).

(** The number carried by a transaction identifier. *)
Definition txn_number (tid : string) : option Z :=
  match tid with
  | String "T" (String "X" (String "N" (String "_" rest))) => read_decimal rest
  | _ => None
  end.

(** ** Worlds and states of the individual claims *)

(** Every draw of [np.random.lognormal] is positive, as the values of that
    distribution are. *)
Definition lognormal_positive (w : World) : Prop :=
  forall i mean sigma, (0 < np_lognormal w i mean sigma)%Q.

(** A state that makes the engine choose fee manipulation: the injection
    rate is 1 and the archetype draw falls in the last fifth. *)
Definition state_fee_manipulation : State :=
  state_of (mkStreamConfig 1 1 1) (world_of [0; 2 ^ 53 - 1] 1 0).

(** A state that makes the engine choose money laundering (default rate,
    both gate draws zero) with the hour draw on the last entry of the list. *)
Definition state_money_laundering : State :=
  state_of default_config (world_of (repeat 0 21 ++ [4]) 1 0).

(** The archetypes that synthesize a device identifier. *)
Definition new_device_archetype (t : Transaction) : Prop :=
  fraud_type t = Some "account_takeover" \/ fraud_type t = Some "loan_fraud".

(** The reading of C8 that the code does not satisfy: a record of a
    new-device archetype never repeats the device of an earlier record. *)
Definition devices_never_seen_before (ts : list Transaction) : Prop :=
  forall (i j : nat) (ti tj : Transaction),
    (i < j)%nat -> nth_error ts i = Some ti -> nth_error ts j = Some tj ->
    new_device_archetype tj -> device_id tj <> device_id ti.

(** Two account takeovers in a row whose device draws coincide. *)
Definition state_repeated_device : State :=
  state_of (mkStreamConfig 1 1 1)
    (world_of [0; 2 ^ 52; 0; 0; 0; 0; 0; 0; 0; 0; 0; 0; 2 ^ 52] 1 0).

(** A fresh generator, money laundering chosen, a burst of fifteen instants
    the first of which is jittered back by the full 300 seconds and the
    others by one second, and a clock that advances by a microsecond per
    reading. *)
Definition state_burst_boundary : State :=
  state_of default_config (world_of [0; 0; 0; 0; 299] 1 (1 # 1000000)).

(** ** The archetype draw, the counters, the burst *)

(** The archetype branch of [generate_transaction]. *)
Definition fraud_dispatch (fraud_type : string) : M Transaction :=
  if String.eqb fraud_type "money_laundering"
  then _generate_money_laundering_transaction
  else if String.eqb fraud_type "account_takeover"
  then _generate_account_takeover_transaction
  else if String.eqb fraud_type "loan_fraud"
  then _generate_loan_fraud_transaction
  else _generate_fee_manipulation_transaction.

(** Where the weighted draw lands: the cumulative weights are 30, 55, 80
    and 100, and the draw is [v * 100]. *)
Definition archetype_of (v : Q) : string :=
  nth (bisect (accumulate 0 [30; 25; 25; 20]) (v * inject_Z 100)%Q 3)
      fraud_types "".

(** The counters [c, c + 1, ..., c + n - 1]. *)
Fixpoint counters (c : Z) (n : nat) : list Z :=
  match n with
  | O => []
  | S n' => c :: counters (c + 1) n'
  end.

(** The world after one jittered append: one clock reading, one draw. *)
Definition after_jitter (w : World) : World :=
  mkWorld (tl_stream (py_random w)) (np_lognormal w)
    (tl_stream (time_time w)) (datetime_now w).

(** The [n] instants a burst appends, from the clock readings and the
    draws it consumes. *)
Definition burst_instants (w : World) (n : nat) : list Q :=
  map (fun i => (time_time w i
                 - inject_Z (1 + py_random w i mod (300 - 1 + 1)))%Q)
      (seq 0 n).

(** ** The fields of each archetype *)

(** What every sampler puts in a record, whatever the archetype. *)
Definition common_fields (t : Transaction) : Prop :=
  In (account_id t) account_pool
  /\ 1 <= branch_id t <= 10
  /\ 1 <= transaction_frequency_5min t
  /\ (0 <= total_deposits_vnd t)%Q.

Definition normal_fields (t : Transaction) : Prop :=
  (10000 <= transaction_amount_vnd t)%Q
  /\ In (location_city t) cities
  /\ In (device_id t) device_pool
  /\ In (biometric_failure_count t) [0; 1; 2]
  /\ (0 <= total_loans_vnd t)%Q
  /\ 50 <= num_transactions t <= 500.

Definition money_laundering_fields (t : Transaction) : Prop :=
  (300000000 <= transaction_amount_vnd t < 1000000000)%Q
  /\ In (transaction_hour t) [1; 2; 3; 23; 24]
  /\ In (location_city t) cities
  /\ In (device_id t) device_pool
  /\ In (biometric_failure_count t) [0; 1]
  /\ (0 <= total_loans_vnd t)%Q
  /\ 200 <= num_transactions t <= 800.

Definition account_takeover_fields (t : Transaction) : Prop :=
  (50000000 <= transaction_amount_vnd t < 500000000)%Q
  /\ In (transaction_hour t) [2; 3; 4; 22; 23]
  /\ In (location_city t) (["Unknown"; "Foreign_Location"] ++ cities)
  /\ (exists k, 90000 <= k <= 99999
                /\ device_id t = "DEV_NEW_" +:+ format_d k)
  /\ 3 <= biometric_failure_count t <= 5
  /\ (0 <= total_loans_vnd t)%Q
  /\ 100 <= num_transactions t <= 300.

Definition loan_fraud_fields (t : Transaction) : Prop :=
  (100000000 <= transaction_amount_vnd t < 800000000)%Q
  /\ In (location_city t) cities
  /\ (exists k, 80000 <= k <= 89999
                /\ device_id t = "DEV_NEW_" +:+ format_d k)
  /\ In (biometric_failure_count t) [0; 1; 2]
  /\ (500000000 <= total_loans_vnd t < 2000000000)%Q
  /\ 1 <= num_transactions t <= 50.

Definition fee_manipulation_fields (t : Transaction) : Prop :=
  (10000 <= transaction_amount_vnd t < 100000)%Q
  /\ In (location_city t) cities
  /\ In (device_id t) device_pool
  /\ In (biometric_failure_count t) [0; 1]
  /\ (0 <= total_loans_vnd t)%Q
  /\ 300 <= num_transactions t <= 1000.

(** The fields of a record, by the archetype that its label names. *)
Definition archetype_fields (t : Transaction) : Prop :=
  (fraud_type t = None /\ normal_fields t)
  \/ (fraud_type t = Some "money_laundering" /\ money_laundering_fields t)
  \/ (fraud_type t = Some "account_takeover" /\ account_takeover_fields t)
  \/ (fraud_type t = Some "loan_fraud" /\ loan_fraud_fields t)
  \/ (fraud_type t = Some "fee_manipulation" /\ fee_manipulation_fields t).

Definition state_normal : State :=
  state_of default_config (world_of [2 ^ 52] 1 0).
Definition state_account_takeover : State :=
  state_of (mkStreamConfig 1 1 1) (world_of [0; 2 ^ 52] 1 0).
Definition state_loan_fraud : State :=
  state_of (mkStreamConfig 1 1 1) (world_of [0; 3 * 2 ^ 51] 1 0).

(** ** What a call does to the activity map *)

(** The window stored for [a], empty when the account is unseen. *)
Definition window_of (s : State) (a : string) : list Q :=
  default [] (recent_activity (self s) !! a).

(** [m] leaves the generator object as it is. *)
Definition keeps_self {A} (m : M A) : Prop :=
  forall s, self (snd (m s)) = self s.

(** [m] leaves the generator object as it is and returns a record of
    account [a] with frequency [f]. *)
Definition tail_of (a : string) (f : Z) (m : M Transaction) : Prop :=
  forall s, self (snd (m s)) = self s
            /\ account_id (fst (m s)) = a
            /\ transaction_frequency_5min (fst (m s)) = f.

(** Between [s] and [s'] the record [t] was produced by a burst of [n]
    appended instants, [lo <= n <= hi], followed by one tracker call: the
    window of the record's account is rewritten, its length is the
    record's frequency, and the rest of the generator is as in [s] but for
    the counter, which moved by [dc]. *)
Definition tracks (s : State) (t : Transaction) (s' : State) (lo hi : nat)
  (dc : Z) : Prop :=
  exists (extra : list Q) (now : Q),
    (lo <= length extra <= hi)%nat
    /\ In (account_id t) account_pool
    /\ transaction_frequency_5min t
       = Z.of_nat (length (pruned_window now
                             (window_of s (account_id t) ++ extra)))
    /\ recent_activity (self s')
       = <[account_id t :=
             pruned_window now (window_of s (account_id t) ++ extra)]>
           (recent_activity (self s))
    /\ transaction_counter (self s') = transaction_counter (self s) + dc.

(** The sizes of the burst that precedes the tracker call, by label. *)
Definition burst_range (label : option string) : nat * nat :=
  match label with
  | Some f =>
      if String.eqb f "money_laundering" then (15%nat, 25%nat)
      else if String.eqb f "fee_manipulation" then (12%nat, 20%nat)
      else (0%nat, 0%nat)
  | None => (0%nat, 0%nat)
  end.

(** ** Sessions with the service *)

(** What [generate_transaction] keeps true of the generator: no more
    accounts are tracked than records were generated, and every tracked
    account is an account of the pool with a non-empty window. *)
Definition generator_ok (g : Generator) : Prop :=
  Z.of_nat (size (recent_activity g)) <= transaction_counter g - 1
  /\ forall a l, recent_activity g !! a = Some l ->
                 In a account_pool /\ l <> [].

(** The requests a client can make, a turn of an open stream included. *)
Inductive Request :=
| GetRoot
| PostConfig (config : StreamConfig)
| GetConfig
| GetTransaction
| GetTransactions (count : Z)
| GetStreamBegin
| GetStreamTurn
| PostStart
| PostStop
| GetStatus.

Inductive Response :=
| RootBody (body : Api.RootResponse)
| MessageBody (body : HTTPResult Api.MessageResponse)
| ConfigBody (body : list (string * pyvalue))
| TransactionBody (body : list (string * pyvalue))
| BatchBody (body : HTTPResult BatchResponse)
| StreamBody (body : option Api.DataPacket)
| TextBody (body : string)
| StatusBody (body : Api.StatusResponse)
| NoBody.

Definition respond {A} (wrap : A -> Response) (h : Api.Handler A)
  : Api.Handler Response :=
  fun sv => (wrap (fst (h sv)), snd (h sv)).

Definition handle (r : Request) : Api.Handler Response :=
  match r with
  | GetRoot => respond RootBody Api.root
  | PostConfig config =>
      respond (fun b => MessageBody (HTTPOk b)) (Api.update_config config)
  | GetConfig => respond ConfigBody Api.get_config
  | GetTransaction => respond TransactionBody Api.get_single_transaction
  | GetTransactions count =>
      respond BatchBody (Api.get_transactions_batch count)
  | GetStreamBegin => respond (fun _ => NoBody) Api.stream_begin
  | GetStreamTurn => respond StreamBody Api.stream_turn
  | PostStart => respond MessageBody Api.start_streaming
  | PostStop => respond TextBody Api.stop_streaming
  | GetStatus => respond StatusBody Api.get_status
  end.

(** The responses to a sequence of requests, and the service after them. *)
Fixpoint session (rs : list Request) : Api.Handler (list Response) :=
  fun sv =>
    match rs with
    | [] => ([], sv)
    | r :: rs' =>
        let (x, sv1) := handle r sv in
        let (xs, sv2) := session rs' sv1 in
        (x :: xs, sv2)
    end.

(** The transaction records a response carries. *)
Definition records (x : Response) : list (list (string * pyvalue)) :=
  match x with
  | TransactionBody body => [body]
  | BatchBody (HTTPOk body) => resp_transactions body
  | StreamBody (Some packet) => Api.packet_transactions packet
  | _ => []
  end.

Definition served (x : Response) : nat := length (records x).

Definition all_records (xs : list Response)
  : list (list (string * pyvalue)) :=
  concat (map records xs).

Definition total_served (xs : list Response) : nat :=
  length (all_records xs).

(** The identifier that a served record carries. *)
Definition served_id (record : list (string * pyvalue)) : option pyvalue :=
  Producer.dict_get "transaction_id" record.

(** The entry that carries the identifier number [k]. *)
Definition id_entry (k : Z) : option pyvalue :=
  Some (PyStr ("TXN_" +:+ format_0d 8 k)).

Definition is_post_config (r : Request) : bool :=
  match r with PostConfig _ => true | _ => false end.

(** ** The relay's flags *)


(** The entry under [k] of an enriched transaction, if enrichment
    returned. *)
Definition enriched_entry (k : string) (r : Producer.result Producer.dict)
  : option pyvalue :=
  match r with
  | Producer.Return e => Producer.dict_get k e
  | Producer.Raise _ => None
  end.

(** What [enrich_transaction] appends to a record of the service. *)
Definition enrichment (producer : Producer.VPBankKinesisProducer)
  (now : string) (t : Transaction) : Producer.dict :=
  [("kinesis_timestamp", PyStr now);
   ("source", PyStr "vpbank_transaction_api");
   ("region", PyStr (Producer.region producer));
   ("stream_name", PyStr (Producer.stream_name producer));
   ("high_amount_flag", PyBool (Qltb 300000000 (transaction_amount_vnd t)));
   ("off_hours_flag",
    PyBool (existsb (Z.eqb (transaction_hour t)) [1; 2; 3; 22; 23; 24]));
   ("suspicious_device_flag",
    PyBool (Producer.str_in "DEV_NEW_" (device_id t)));
   ("high_frequency_flag", PyBool (10 <? transaction_frequency_5min t)%Z)].

Definition a_producer : Producer.VPBankKinesisProducer :=
  Producer.mkProducer "ap-southeast-1" "Transactions" "http://localhost:8000".

(** A takeover whose hour draw lands on 4. *)
Definition state_takeover_at_four : State :=
  state_of (mkStreamConfig 1 1 1) (world_of [0; 2 ^ 52; 0; 0; 0; 0; 2] 1 0).

(** A transaction that comes with a [source] of its own. *)
Definition foreign_transaction : Producer.dict :=
  [("source", PyStr "elsewhere");
   ("transaction_amount_vnd", PyFloat 5);
   ("transaction_hour", PyInt 3)].

(** ** The export *)

(** The cells of the row written for a record. *)
Definition csv_row (t : Transaction) : list pyvalue := map snd (to_dict t).

(** The progress lines printed while the rows of [indices] are written. *)
Definition progress_lines (num_transactions : Z) (indices : list Z)
  : list Csv.Printed :=
  concat (map (fun i => if ((i + 1) mod 100 =? 0)%Z
                        then [Csv.Progress (i + 1) num_transactions]
                        else []) indices).

Definition is_progress (p : Csv.Printed) : bool :=
  match p with Csv.Progress _ _ => true | _ => false end.

(** The label cells of a row: the sixteenth and the seventeenth. *)
Definition label_cells (row : list pyvalue) : option (pyvalue * pyvalue) :=
  match nth_error row 15, nth_error row 16 with
  | Some b, Some f => Some (b, f)
  | _, _ => None
  end.

(** * Properties *)

(** ** Running a computation *)

Lemma bind_run {A B} (m : M A) (k : A -> M B) (s : State) :
  bind m k s = k (fst (m s)) (snd (m s)).
Proof. unfold bind. destruct (m s) as [a s']. reflexivity. Qed.

Lemma Qltb_lt (x y : Q) : Qltb x y = true <-> (x < y)%Q.
Proof.
  unfold Qltb. rewrite negb_true_iff. split.
  - intros H. apply Qnot_le_lt. intros Hle.
    apply Qle_bool_iff in Hle. congruence.
  - intros H. destruct (Qle_bool y x) eqn:E; [|reflexivity].
    apply Qle_bool_iff in E. apply Qlt_not_le in H. contradiction.
Qed.

Lemma Qltb_ge (x y : Q) : Qltb x y = false <-> (y <= x)%Q.
Proof.
  unfold Qltb. rewrite negb_false_iff. apply Qle_bool_iff.
Qed.

Lemma filter_all {A} (f : A -> bool) (l : list A) :
  (forall x, In x l -> f x = true) -> List.filter f l = l.
Proof.
  induction l as [|a l IH]; intros H; simpl; [reflexivity|].
  rewrite (H a (or_introl eq_refl)). f_equal. apply IH.
  intros x Hx. apply H. right. exact Hx.
Qed.

Lemma filter_none {A} (f : A -> bool) (l : list A) :
  (forall x, In x l -> f x = false) -> List.filter f l = [].
Proof.
  induction l as [|a l IH]; intros H; simpl; [reflexivity|].
  rewrite (H a (or_introl eq_refl)). apply IH.
  intros x Hx. apply H. right. exact Hx.
Qed.

(** ** The tracker in closed form *)

Lemma update_account_activity_run (account_id : string) (s : State) :
  let now := time_time (world s) 0%nat in
  let recorded := default [] (recent_activity (self s) !! account_id) in
  _update_account_activity account_id s =
  (Z.of_nat (length (pruned_window now recorded)),
   mkState
     (mkGenerator (transaction_counter (self s))
        (<[account_id := pruned_window now recorded]> (recent_activity (self s))))
     (current_config s) (tick (world s))).
Proof.
  destruct s as [[c ra] cfg w]. cbn zeta.
  unfold _update_account_activity, ensure_entry, set_activity, get_activity,
    get_self, put_self, time_now, bind, ret, pruned_window, tick.
  cbn [self world current_config recent_activity transaction_counter].
  destruct (ra !! account_id) as [l|] eqn:E;
    cbn [self world current_config recent_activity transaction_counter
         fst snd default];
    rewrite ?E, ?lookup_insert_eq; cbn [default];
    rewrite ?lookup_insert_eq; cbn [default];
    rewrite ?insert_insert_eq; reflexivity.
Qed.

(** Every subscript [self.recent_activity[account_id]] of the tracker finds
    its key: the entry exists once [ensure_entry] has run. *)
Lemma ensure_entry_present (account_id : string) (s : State) :
  is_Some (recent_activity (self (snd (ensure_entry account_id s))) !! account_id).
Proof.
  destruct s as [[c ra] cfg w].
  unfold ensure_entry, set_activity, get_self, put_self, bind, ret. cbn.
  destruct (ra !! account_id) eqn:E; cbn.
  - rewrite E. eauto.
  - rewrite lookup_insert_eq. eauto.
Qed.

Lemma for_range_S {A} (n : nat) (body : M A) (s : State) :
  for_range (S n) body s =
  (fst (body s) :: fst (for_range n body (snd (body s))),
   snd (for_range n body (snd (body s)))).
Proof.
  cbn [for_range]. rewrite !bind_run. unfold ret.
  destruct (for_range n body (snd (body s))). reflexivity.
Qed.

Lemma for_range_length {A} (n : nat) (body : M A) (s : State) :
  length (fst (for_range n body s)) = n.
Proof.
  revert s. induction n as [|n IH]; intros s; [reflexivity|].
  rewrite for_range_S. cbn [fst length]. f_equal. apply IH.
Qed.




(** *** The frequency invariant *)



(** ** A program logic for the samplers *)

Lemma hoare_bind {A B} (P : State -> Prop) (m : M A) (k : A -> M B)
      (R : A -> State -> Prop) (R' : B -> State -> Prop) :
  hoare P m R -> (forall a, hoare (R a) (k a) R') -> hoare P (bind m k) R'.
Proof.
  intros Hm Hk s Hs. rewrite bind_run. apply (Hk _ _ (Hm s Hs)).
Qed.

Lemma bisect_le (a : list Z) (x : Q) (hi : nat) : (bisect a x hi <= hi)%nat.
Proof.
  revert a. induction hi as [|hi IH]; intros [|c a]; cbn; try lia.
  destruct (Qle_bool (inject_Z c) x); [|lia].
  specialize (IH a). lia.
Qed.

Lemma random_unit_interval (r : Z) :
  (0 <= inject_Z (r mod 2 ^ 53) / inject_Z (2 ^ 53) < 1)%Q.
Proof.
  assert (H : 0 <= r mod 2 ^ 53 < 2 ^ 53) by (apply Z.mod_pos_bound; lia).
  assert (Hpos : (0 < inject_Z (2 ^ 53))%Q)
    by (change 0%Q with (inject_Z 0); rewrite <- Zlt_Qlt; lia).
  split.
  - apply Qle_shift_div_l; [exact Hpos|]. rewrite Qmult_0_l.
    change 0%Q with (inject_Z 0). rewrite <- Zle_Qle. lia.
  - apply Qlt_shift_div_r; [exact Hpos|]. rewrite Qmult_1_l.
    rewrite <- Zlt_Qlt. lia.
Qed.

(** The pools are not empty. *)
Lemma range_nonempty (a b : Z) : a < b -> range a b <> [].
Proof.
  intros Hab. unfold range.
  destruct (Z.to_nat (b - a)) eqn:E; [lia|]. cbn. discriminate.
Qed.

Lemma account_pool_nonempty : account_pool <> [].
Proof.
  unfold account_pool. intros H. apply map_eq_nil in H.
  revert H. apply range_nonempty. lia.
Qed.

Lemma device_pool_nonempty : device_pool <> [].
Proof.
  unfold device_pool. intros H. apply map_eq_nil in H.
  revert H. apply range_nonempty. lia.
Qed.

Section Samplers.

(** [W] is any property of the world that survives the consumption of an
    observation; [V] is what it guarantees about lognormal draws. *)
Variable W : World -> Prop.
Variable V : Q -> Prop.

Hypothesis W_random : forall w, W w ->
  W (mkWorld (tl_stream (py_random w)) (np_lognormal w) (time_time w)
       (datetime_now w)).
Hypothesis W_numpy : forall w, W w ->
  W (mkWorld (py_random w) (tl_stream (np_lognormal w)) (time_time w)
       (datetime_now w)).
Hypothesis W_time : forall w, W w ->
  W (mkWorld (py_random w) (np_lognormal w) (tl_stream (time_time w))
       (datetime_now w)).
Hypothesis W_datetime : forall w, W w ->
  W (mkWorld (py_random w) (np_lognormal w) (time_time w)
       (tl_stream (datetime_now w))).
Hypothesis W_lognormal : forall w mean sigma, W w ->
  V (np_lognormal w 0%nat mean sigma).

(** The counter and the configuration in force. *)
Variable c : Z.
Variable cfg : StreamConfig.

Lemma yields_ret {A} (a : A) (R : A -> Prop) : R a -> yields W c cfg (ret a) R.
Proof. intros H s Hs. split; assumption. Qed.

Lemma yields_bind {A B} (m : M A) (k : A -> M B) (R : A -> Prop)
      (R' : B -> Prop) :
  yields W c cfg m R -> (forall a, R a -> yields W c cfg (k a) R') ->
  yields W c cfg (bind m k) R'.
Proof.
  intros Hm Hk. eapply hoare_bind; [exact Hm|].
  intros a s [Hs Ha]. apply (Hk a Ha s Hs).
Qed.

Lemma yields_weaken {A} (m : M A) (R R' : A -> Prop) :
  yields W c cfg m R -> (forall a, R a -> R' a) -> yields W c cfg m R'.
Proof. intros Hm HR s Hs. destruct (Hm s Hs). split; auto. Qed.

Lemma yields_if {A} (b : bool) (m1 m2 : M A) (R : A -> Prop) :
  yields W c cfg m1 R -> yields W c cfg m2 R -> yields W c cfg (if b then m1 else m2) R.
Proof. destruct b; auto. Qed.

Lemma yields_next_word : yields W c cfg next_word (fun _ => True).
Proof.
  intros s (Hw & Hc & Hcfg). unfold Inv. cbn. repeat split; auto.
Qed.

Lemma yields_random_random :
  yields W c cfg random_random (fun u => 0 <= u < 1)%Q.
Proof.
  eapply yields_bind; [apply yields_next_word|]. intros r _.
  apply yields_ret. apply random_unit_interval.
Qed.

Lemma yields_randbelow (n : Z) :
  0 < n -> yields W c cfg (randbelow n) (fun k => 0 <= k < n).
Proof.
  intros Hn. eapply yields_bind; [apply yields_next_word|]. intros r _.
  apply yields_ret. apply Z.mod_pos_bound. exact Hn.
Qed.

Lemma yields_randint (a b : Z) :
  a <= b -> yields W c cfg (random_randint a b) (fun k => a <= k <= b).
Proof.
  intros Hab. eapply yields_bind; [apply yields_randbelow; lia|].
  intros k Hk. cbv beta in Hk. apply yields_ret. lia.
Qed.

Lemma yields_choice {A} (d : A) (l : list A) :
  l <> [] -> yields W c cfg (random_choice d l) (fun x => In x l).
Proof.
  intros Hl. eapply yields_bind.
  - apply yields_randbelow. destruct l; [congruence|]. cbn [length]. lia.
  - intros k Hk. cbv beta in Hk. apply yields_ret. apply nth_In. lia.
Qed.

Lemma yields_uniform (a b : Q) :
  (a < b)%Q -> yields W c cfg (random_uniform a b) (fun x => a <= x < b)%Q.
Proof.
  intros Hab. eapply yields_bind; [apply yields_random_random|].
  intros u Hu. cbv beta in Hu. apply yields_ret. split; nra.
Qed.

Lemma yields_choices {A} (d : A) (population : list A) (weights : list Z) :
  population <> [] ->
  yields W c cfg (random_choices d population weights) (fun x => In x population).
Proof.
  intros Hl. unfold random_choices.
  eapply yields_bind; [apply yields_random_random|].
  intros u _. apply yields_ret. apply nth_In.
  match goal with
  | |- context [bisect ?a ?x ?h] => pose proof (bisect_le a x h)
  end.
  destruct population; [congruence|]. cbn [length] in *. lia.
Qed.

Lemma yields_lognormal (mean sigma : Q) :
  yields W c cfg (np_random_lognormal mean sigma) V.
Proof.
  intros s (Hw & Hc & Hcfg). unfold Inv. cbn. repeat split; auto.
Qed.

Lemma yields_time_now : yields W c cfg time_now (fun _ => True).
Proof. intros s (Hw & Hc & Hcfg). unfold Inv. cbn. repeat split; auto. Qed.

Lemma yields_datetime_now : yields W c cfg datetime_dot_now (fun _ => True).
Proof. intros s (Hw & Hc & Hcfg). unfold Inv. cbn. repeat split; auto. Qed.

Lemma yields_get_config : yields W c cfg get_config (fun x => x = cfg).
Proof. intros s (Hw & Hc & Hcfg). unfold Inv. cbn. repeat split; auto. Qed.

Lemma yields_txn_id :
  yields W c cfg txn_id (fun tid => tid = "TXN_" +:+ format_0d 8 c).
Proof.
  intros s (Hw & Hc & Hcfg). unfold Inv. cbn. repeat split; auto. rewrite Hc.
  reflexivity.
Qed.

Lemma yields_update_account_activity (account_id : string) :
  yields W c cfg (_update_account_activity account_id) (fun n => 1 <= n).
Proof.
  intros s (Hw & Hc & Hcfg). rewrite update_account_activity_run.
  cbn [fst snd]. split.
  - unfold Inv. cbn. repeat split; auto. apply W_time. exact Hw.
  - unfold pruned_window. rewrite length_app. cbn [length]. lia.
Qed.

Lemma yields_set_activity (account_id : string) (l : list Q) :
  yields W c cfg (set_activity account_id l) (fun _ => True).
Proof.
  intros [[c0 ra] cfg0 w] (Hw & Hc & Hcfg). unfold Inv. cbn in *.
  repeat split; auto.
Qed.

Lemma yields_get_activity (account_id : string) :
  yields W c cfg (get_activity account_id) (fun _ => True).
Proof.
  intros [[c0 ra] cfg0 w] (Hw & Hc & Hcfg). unfold Inv. cbn in *.
  repeat split; auto.
Qed.

Lemma yields_ensure_entry (account_id : string) :
  yields W c cfg (ensure_entry account_id) (fun _ => True).
Proof.
  intros [[c0 ra] cfg0 w] (Hw & Hc & Hcfg). unfold Inv.
  unfold ensure_entry, set_activity, get_self, put_self, bind, ret.
  cbn in *. destruct (ra !! account_id); cbn; repeat split; auto.
Qed.

Lemma yields_append_jittered (account_id : string) :
  yields W c cfg (append_jittered account_id) (fun _ => True).
Proof.
  unfold append_jittered.
  eapply yields_bind; [apply yields_ensure_entry|]. intros _ _.
  eapply yields_bind; [apply yields_time_now|]. intros t _.
  eapply yields_bind; [apply yields_randint; lia|]. intros j _.
  eapply yields_bind; [apply yields_get_activity|]. intros l _.
  apply yields_set_activity.
Qed.

Lemma yields_for_range {A} (n : nat) (body : M A) :
  yields W c cfg body (fun _ => True) -> yields W c cfg (for_range n body) (fun _ => True).
Proof.
  intros Hbody. induction n as [|n IH]; cbn [for_range].
  - apply yields_ret. exact I.
  - eapply yields_bind; [exact Hbody|]. intros x _.
    eapply yields_bind; [exact IH|]. intros xs _.
    apply yields_ret. exact I.
Qed.

(** *** What each sampler returns *)

Ltac yprim :=
  first
    [ apply yields_choice;
      first [ exact account_pool_nonempty | exact device_pool_nonempty
            | discriminate ]
    | apply yields_choices; discriminate
    | apply yields_randint; lia
    | apply yields_uniform; lra
    | apply yields_random_random
    | apply yields_lognormal
    | apply yields_datetime_now
    | apply yields_update_account_activity
    | apply yields_txn_id
    | apply yields_for_range; apply yields_append_jittered ].

Ltac ystep :=
  lazymatch goal with
  | |- yields W c cfg (bind _ _) _ =>
      eapply yields_bind; [ yprim | intros ? ? ]
  | |- yields W c cfg (ret _) _ => apply yields_ret
  end.

Ltac yfinish :=
  cbv beta in *;
  unfold normal_post, money_laundering_post, account_takeover_post,
    loan_fraud_post, fee_manipulation_post, labelled;
  cbn [transaction_id transaction_amount_vnd transaction_hour device_id
       total_deposits_vnd transaction_fees_vnd is_fraud fraud_type];
  repeat split; subst; eauto; try tauto.

Lemma yields_normal : yields W c cfg _generate_normal_transaction (normal_post V c).
Proof. unfold _generate_normal_transaction. repeat ystep. yfinish. Qed.

Lemma yields_money_laundering :
  yields W c cfg _generate_money_laundering_transaction (money_laundering_post V c).
Proof.
  unfold _generate_money_laundering_transaction. repeat ystep. yfinish.
Qed.

Lemma yields_account_takeover :
  yields W c cfg _generate_account_takeover_transaction (account_takeover_post V c).
Proof.
  unfold _generate_account_takeover_transaction. repeat ystep. yfinish.
Qed.

Lemma yields_loan_fraud :
  yields W c cfg _generate_loan_fraud_transaction (loan_fraud_post V c).
Proof. unfold _generate_loan_fraud_transaction. repeat ystep. yfinish. Qed.

Lemma yields_fee_manipulation :
  yields W c cfg _generate_fee_manipulation_transaction (fee_manipulation_post V c).
Proof.
  unfold _generate_fee_manipulation_transaction. repeat ystep. yfinish.
Qed.

(** *** The engine *)

Lemma yields_fraud_dispatch (fraud_type : string) :
  yields W c cfg
    (if String.eqb fraud_type "money_laundering"
     then _generate_money_laundering_transaction
     else if String.eqb fraud_type "account_takeover"
     then _generate_account_takeover_transaction
     else if String.eqb fraud_type "loan_fraud"
     then _generate_loan_fraud_transaction
     else _generate_fee_manipulation_transaction)
    (sampled V c).
Proof.
  unfold sampled. repeat apply yields_if.
  - eapply yields_weaken; [apply yields_money_laundering|]. tauto.
  - eapply yields_weaken; [apply yields_account_takeover|]. tauto.
  - eapply yields_weaken; [apply yields_loan_fraud|]. tauto.
  - eapply yields_weaken; [apply yields_fee_manipulation|]. tauto.
Qed.

Lemma hoare_bind_yields {A B} (m : M A) (k : A -> M B) (R : A -> Prop)
      (R' : B -> State -> Prop) :
  yields W c cfg m R -> (forall a, R a -> hoare (Inv W c cfg) (k a) R') ->
  hoare (Inv W c cfg) (bind m k) R'.
Proof.
  intros Hm Hk s Hs. rewrite bind_run.
  destruct (Hm s Hs) as [Hs' Ha]. apply (Hk _ Ha _ Hs').
Qed.

(** One call of the engine: a sampled record with its fee finalized, and
    the counter moved on by one. *)
Lemma generate_transaction_spec :
  hoare (Inv W c cfg) generate_transaction
    (fun t s' =>
       W (world s')
       /\ transaction_counter (self s') = c + 1
       /\ current_config s' = cfg
       /\ exists t0, sampled V c t0 /\ t = finalize_fees t0).
Proof.
  unfold generate_transaction.
  eapply hoare_bind_yields; [apply yields_random_random|]. intros u _.
  eapply hoare_bind_yields; [apply yields_get_config|]. intros cfg0 _.
  eapply hoare_bind_yields with (R := sampled V c).
  { apply yields_if.
    - eapply yields_bind; [apply yields_choices; discriminate|].
      intros f _. apply yields_fraud_dispatch.
    - eapply yields_weaken; [apply yields_normal|]. unfold sampled. tauto. }
  intros t Ht [[c0 ra] cfg1 w] (Hw & Hc & Hcfg).
  unfold increment_counter, get_self, put_self, bind, ret. cbn in *.
  repeat split; auto.
  - lia.
  - exists t. auto.
Qed.

End Samplers.

(** ** Reading identifiers back as numbers *)

Lemma uint_of_string_zeros (k : nat) (s : string) :
  NilEmpty.uint_of_string (zeros k +:+ s) =
  option_map (Nat.iter k D0) (NilEmpty.uint_of_string s).
Proof.
  induction k as [|k IH].
  - change (zeros 0 +:+ s) with s.
    destruct (NilEmpty.uint_of_string s); reflexivity.
  - change (zeros (S k) +:+ s) with (String "0" (zeros k +:+ s)).
    cbn [NilEmpty.uint_of_string]. rewrite IH.
    destruct (NilEmpty.uint_of_string s); reflexivity.
Qed.

Lemma pos_of_uint_zeros (k : nat) (d : uint) :
  Pos.of_uint (Nat.iter k D0 d) = Pos.of_uint d.
Proof. induction k as [|k IH]; [reflexivity|]. cbn. exact IH. Qed.

Lemma int_of_uint_string (s : string) (d : uint) :
  NilEmpty.uint_of_string s = Some d ->
  NilEmpty.int_of_string s = Some (Pos d).
Proof.
  destruct s as [|a s]; cbn [NilEmpty.uint_of_string NilEmpty.int_of_string].
  - intros [= <-]. reflexivity.
  - intros H. destruct (Ascii.eqb_spec a "-") as [-> | _].
    + destruct (NilEmpty.uint_of_string s); discriminate H.
    + cbn [NilEmpty.uint_of_string]. rewrite H. reflexivity.
Qed.

Lemma uint_of_padded_digits (k : nat) (n : Z) :
  NilEmpty.uint_of_string (zeros k +:+ digits n) =
  Some (Nat.iter k D0 (N.to_uint (Z.to_N n))).
Proof.
  rewrite uint_of_string_zeros. unfold digits.
  rewrite NilEmpty.usu. reflexivity.
Qed.

Lemma read_format_0d (width : nat) (n : Z) :
  read_decimal (format_0d width n) = Some n.
Proof.
  unfold read_decimal, format_0d.
  destruct (n <? 0)%Z eqn:E.
  - apply Z.ltb_lt in E. cbn [NilEmpty.int_of_string Ascii.eqb Bool.eqb].
    rewrite uint_of_padded_digits. cbn [option_map Z.of_int]. unfold Z.of_uint.
    rewrite pos_of_uint_zeros.
    change (Pos.of_uint (N.to_uint (Z.to_N (- n))))
      with (N.of_uint (N.to_uint (Z.to_N (- n)))).
    rewrite DecimalN.Unsigned.of_to. f_equal. lia.
  - apply Z.ltb_ge in E.
    rewrite (int_of_uint_string _ _ (uint_of_padded_digits _ n)).
    cbn [option_map Z.of_int]. unfold Z.of_uint. rewrite pos_of_uint_zeros.
    change (Pos.of_uint (N.to_uint (Z.to_N n)))
      with (N.of_uint (N.to_uint (Z.to_N n))).
    rewrite DecimalN.Unsigned.of_to. f_equal. lia.
Qed.

Lemma txn_number_id (n : Z) :
  txn_number ("TXN_" +:+ format_0d 8 n) = Some n.
Proof. cbn [String.append txn_number]. apply read_format_0d. Qed.

Lemma format_0d_inj (width : nat) (n m : Z) :
  format_0d width n = format_0d width m -> n = m.
Proof.
  intros H. apply (f_equal read_decimal) in H.
  rewrite !read_format_0d in H. congruence.
Qed.

(** ** The engine on an arbitrary world, and on a world whose lognormal
    draws are positive (as every draw of that distribution is) *)

Lemma generate_transaction_run (s : State) :
  exists t0,
    sampled (fun _ => True) (transaction_counter (self s)) t0
    /\ fst (generate_transaction s) = finalize_fees t0
    /\ transaction_counter (self (snd (generate_transaction s)))
       = transaction_counter (self s) + 1
    /\ current_config (snd (generate_transaction s)) = current_config s.
Proof.
  destruct (generate_transaction_spec (fun _ => True) (fun _ => True)
              ltac:(auto) ltac:(auto) ltac:(auto) ltac:(auto) ltac:(auto)
              (transaction_counter (self s)) (current_config s) s)
    as (_ & Hc & Hcfg & t0 & Ht0 & Ht).
  - repeat split.
  - exists t0. auto.
Qed.

Lemma generate_transaction_run_positive (s : State) :
  lognormal_positive (world s) ->
  exists t0,
    sampled (fun x => 0 < x)%Q (transaction_counter (self s)) t0
    /\ fst (generate_transaction s) = finalize_fees t0
    /\ lognormal_positive (world (snd (generate_transaction s))).
Proof.
  intros Hpos.
  destruct (generate_transaction_spec lognormal_positive (fun x => 0 < x)%Q)
    with (c := transaction_counter (self s)) (cfg := current_config s)
         (s := s)
    as (Hw & _ & _ & t0 & Ht0 & Ht);
    try (intros w Hw i mean sigma; apply (Hw _ mean sigma)).
  - intros w mean sigma Hw. apply Hw.
  - repeat split. exact Hpos.
  - exists t0. auto.
Qed.

Lemma finalize_fees_unset (t : Transaction) :
  transaction_fees_vnd t = 0%Q ->
  finalize_fees t =
  set_transaction_fees_vnd t (total_deposits_vnd t * (1 # 1000))%Q.
Proof. unfold finalize_fees. intros ->. reflexivity. Qed.

Lemma finalize_fees_set (t : Transaction) :
  ~ (transaction_fees_vnd t == 0)%Q -> finalize_fees t = t.
Proof.
  unfold finalize_fees. intros H.
  destruct (Qeq_bool (transaction_fees_vnd t) 0) eqn:E; [|reflexivity].
  apply Qeq_bool_iff in E. contradiction.
Qed.

Lemma finalize_fees_fraud_type (t : Transaction) :
  fraud_type (finalize_fees t) = fraud_type t.
Proof. unfold finalize_fees. destruct (Qeq_bool _ _); reflexivity. Qed.

Lemma finalize_fees_is_fraud (t : Transaction) :
  is_fraud (finalize_fees t) = is_fraud t.
Proof. unfold finalize_fees. destruct (Qeq_bool _ _); reflexivity. Qed.

Lemma finalize_fees_transaction_id (t : Transaction) :
  transaction_id (finalize_fees t) = transaction_id t.
Proof. unfold finalize_fees. destruct (Qeq_bool _ _); reflexivity. Qed.

Lemma finalize_fees_device_id (t : Transaction) :
  device_id (finalize_fees t) = device_id t.
Proof. unfold finalize_fees. destruct (Qeq_bool _ _); reflexivity. Qed.

Lemma finalize_fees_amount (t : Transaction) :
  transaction_amount_vnd (finalize_fees t) = transaction_amount_vnd t.
Proof. unfold finalize_fees. destruct (Qeq_bool _ _); reflexivity. Qed.

Lemma finalize_fees_hour (t : Transaction) :
  transaction_hour (finalize_fees t) = transaction_hour t.
Proof. unfold finalize_fees. destruct (Qeq_bool _ _); reflexivity. Qed.

Lemma finalize_fees_deposits (t : Transaction) :
  total_deposits_vnd (finalize_fees t) = total_deposits_vnd t.
Proof. unfold finalize_fees. destruct (Qeq_bool _ _); reflexivity. Qed.

Lemma py_max_positive (x : Q) : (0 < x)%Q -> py_max 0 x = x.
Proof.
  intros H. unfold py_max. apply Qltb_lt in H. rewrite H. reflexivity.
Qed.

(** Case analysis on the archetype that produced a record. *)
Ltac sampled_cases H :=
  let Hid := fresh "Hid" in
  let x := fresh "x" in
  let Hx := fresh "Hx" in
  let Hdep := fresh "Hdep" in
  let Hty := fresh "Hty" in
  let Hfr := fresh "Hfr" in
  let Hfee := fresh "Hfee" in
  let Hrest := fresh "Hrest" in
  destruct H as [H | [H | [H | [H | H]]]];
  destruct H as ((Hid & (x & Hx & Hdep) & Hty & Hfr) & Hfee & Hrest).

(** C3. The fee finalizer keeps a nonzero fee and replaces an unset (zero)
    fee by [total_deposits_vnd * 0.001].  Hence every generated record whose
    archetype is not fee manipulation has
    [transaction_fees_vnd = total_deposits_vnd * 0.001], and every generated
    record has a fee that is non-negative and different from the unset
    value 0. *)
Theorem fee_finalization (s : State) :
  lognormal_positive (world s) ->
  let t := fst (generate_transaction s) in
  (forall t0, ~ (transaction_fees_vnd t0 == 0)%Q -> finalize_fees t0 = t0)
  /\ (forall t0, (transaction_fees_vnd t0 == 0)%Q ->
        transaction_fees_vnd (finalize_fees t0)
        = (total_deposits_vnd t0 * (1 # 1000))%Q)
  /\ (fraud_type t <> Some "fee_manipulation" ->
      transaction_fees_vnd t = (total_deposits_vnd t * (1 # 1000))%Q)
  /\ (0 <= transaction_fees_vnd t)%Q
  /\ ~ (transaction_fees_vnd t == 0)%Q.
Proof.
  intros Hpos t. split; [exact finalize_fees_set|]. split.
  { intros t0 H0. unfold finalize_fees.
    apply Qeq_bool_iff in H0. rewrite H0. reflexivity. }
  destruct (generate_transaction_run_positive s Hpos) as (t0 & Hs & Ht & _).
  subst t. rewrite Ht. clear Ht.
  assert (Hzero : transaction_fees_vnd t0 = 0%Q ->
                  (exists x, (0 < x)%Q /\ total_deposits_vnd t0 = py_max 0 x) ->
                  transaction_fees_vnd (finalize_fees t0)
                  = (total_deposits_vnd (finalize_fees t0) * (1 # 1000))%Q
                  /\ (0 < transaction_fees_vnd (finalize_fees t0))%Q).
  { intros Hfee (x & Hx & Hdep). rewrite (finalize_fees_unset _ Hfee).
    cbn [transaction_fees_vnd total_deposits_vnd set_transaction_fees_vnd].
    split; [reflexivity|]. rewrite Hdep, (py_max_positive _ Hx). lra. }
  sampled_cases Hs.
  1-4: destruct (Hzero Hfee (ex_intro _ x (conj Hx Hdep))) as [E Hlt];
       repeat split; [intros _; exact E | lra | lra].
  destruct Hrest as [Hfee' _]. rewrite finalize_fees_set.
  - repeat split.
    + intros Hne. congruence.
    + rewrite Hfee'. lra.
    + rewrite Hfee'. lra.
  - rewrite Hfee'. lra.
Qed.

Lemma fee_finalization_witness :
  ~ (transaction_fees_vnd
       (fst (generate_transaction
               (state_of default_config (world_of [] 1 0)))) == 0)%Q.
Proof.
  apply (fee_finalization (state_of default_config (world_of [] 1 0))).
  intros i mean sigma. reflexivity.
Defined.

(** C4. Every fee-manipulation record has
    [transaction_fees_vnd = transaction_amount_vnd * 0.05] and an amount in
    the half-open interval [10000, 100000). *)
Theorem fee_manipulation_fee_and_amount (s : State) :
  let t := fst (generate_transaction s) in
  fraud_type t = Some "fee_manipulation" ->
  transaction_fees_vnd t = (transaction_amount_vnd t * (5 # 100))%Q
  /\ (10000 <= transaction_amount_vnd t)%Q
  /\ (transaction_amount_vnd t < 100000)%Q.
Proof.
  intros t. subst t.
  destruct (generate_transaction_run s) as (t0 & Hs & Ht & _).
  rewrite Ht, finalize_fees_fraud_type. clear Ht. intros Hlabel.
  sampled_cases Hs; try congruence.
  destruct Hrest as [Hfee' _]. rewrite finalize_fees_set.
  - repeat split; [exact Hfee' | lra | lra].
  - rewrite Hfee'. lra.
Qed.

Lemma fee_manipulation_fee_and_amount_witness :
  fraud_type (fst (generate_transaction state_fee_manipulation))
    = Some "fee_manipulation"
  /\ (transaction_amount_vnd (fst (generate_transaction state_fee_manipulation))
      < 100000)%Q.
Proof.
  assert (H : fraud_type (fst (generate_transaction state_fee_manipulation))
              = Some "fee_manipulation") by (vm_compute; reflexivity).
  split; [exact H|].
  apply (fee_manipulation_fee_and_amount state_fee_manipulation H).
Defined.

(** C7. Every money-laundering record has an amount in [3e8, 1e9] and an
    hour in {1, 2, 3, 23, 24}; the hour 24 does occur and is emitted as it
    is. *)
Theorem money_laundering_amount_and_hour :
  (forall s : State,
     let t := fst (generate_transaction s) in
     fraud_type t = Some "money_laundering" ->
     (300000000 <= transaction_amount_vnd t)%Q
     /\ (transaction_amount_vnd t <= 1000000000)%Q
     /\ In (transaction_hour t) [1; 2; 3; 23; 24])
  /\ (exists s : State,
        let t := fst (generate_transaction s) in
        fraud_type t = Some "money_laundering" /\ transaction_hour t = 24).
Proof.
  split.
  - intros s t. subst t.
    destruct (generate_transaction_run s) as (t0 & Hs & Ht & _).
    rewrite Ht, finalize_fees_fraud_type, finalize_fees_amount,
      finalize_fees_hour. clear Ht. intros Hlabel.
    sampled_cases Hs; try congruence.
    destruct Hrest as (Hamount & Hhour & _).
    repeat split; [lra | lra | exact Hhour].
  - exists state_money_laundering. vm_compute. split; reflexivity.
Qed.

Lemma money_laundering_amount_and_hour_witness :
  In (transaction_hour (fst (generate_transaction state_money_laundering)))
     [1; 2; 3; 23; 24].
Proof.
  apply (proj1 money_laundering_amount_and_hour state_money_laundering).
  vm_compute. reflexivity.
Defined.

(** ** Device identifiers *)

Lemma range_from_In (n : nat) :
  forall a i, In i (range_from a n) -> a <= i < a + Z.of_nat n.
Proof.
  induction n as [|n IH]; intros a i; cbn [range_from].
  - intros [].
  - intros [<- | H]; [lia|]. apply IH in H. lia.
Qed.

Lemma device_pool_In (x : string) :
  In x device_pool ->
  exists i, 10000 <= i < 50000 /\ x = "DEV_" +:+ format_0d 5 i.
Proof.
  unfold device_pool. intros H. apply in_map_iff in H.
  destruct H as (i & <- & Hi). exists i. split; [|reflexivity].
  unfold range in Hi. apply range_from_In in Hi. lia.
Qed.

Lemma append_inj_l (p a b : string) : p +:+ a = p +:+ b -> a = b.
Proof.
  induction p as [|ch p IH]; intros H; [exact H|].
  apply IH. change (String ch (p +:+ a) = String ch (p +:+ b)) in H.
  congruence.
Qed.

(** A synthesized device identifier is no member of the device pool: the
    pool's identifiers continue with a digit after ["DEV_"]. *)
Lemma new_device_not_in_pool (k : Z) :
  ~ In ("DEV_NEW_" +:+ format_d k) device_pool.
Proof.
  intros H. apply device_pool_In in H. destruct H as (i & Hi & E).
  change ("DEV_NEW_" +:+ format_d k)
    with ("DEV_" +:+ String "N" ("EW_" +:+ format_d k)) in E.
  apply append_inj_l in E.
  apply (f_equal NilEmpty.uint_of_string) in E.
  unfold format_0d in E. replace (i <? 0)%Z with false in E by lia.
  rewrite uint_of_padded_digits in E.
  cbn [NilEmpty.uint_of_string] in E.
  destruct (NilEmpty.uint_of_string ("EW_" +:+ format_d k)); discriminate E.
Qed.

(** C8 as stated fails: the second of two consecutive account-takeover
    records carries the device identifier of the first. *)
Lemma device_id_can_repeat :
  ~ devices_never_seen_before
      (fst (for_range 2 generate_transaction state_repeated_device)).
Proof.
  intros H.
  assert (E : exists t1 t2,
             fst (for_range 2 generate_transaction state_repeated_device)
             = [t1; t2]
             /\ fraud_type t2 = Some "account_takeover"
             /\ device_id t2 = device_id t1).
  { eexists. eexists. split; [vm_compute; reflexivity|].
    split; reflexivity. }
  destruct E as (t1 & t2 & E & Hlabel & Hdev). rewrite E in H.
  apply (H 0%nat 1%nat t1 t2); [lia | reflexivity | reflexivity | | exact Hdev].
  left. exact Hlabel.
Qed.

(** C8 (amended). Every account-takeover or loan-fraud record carries a
    synthesized device identifier ["DEV_NEW_"] followed by a number drawn
    from 90000..99999 (takeover) or 80000..89999 (loan fraud), and that
    identifier is no member of the device pool. *)
Theorem new_device_outside_pool (s : State) :
  let t := fst (generate_transaction s) in
  (fraud_type t = Some "account_takeover" ->
   ~ In (device_id t) device_pool
   /\ exists k, 90000 <= k <= 99999
                /\ device_id t = "DEV_NEW_" +:+ format_d k)
  /\ (fraud_type t = Some "loan_fraud" ->
      ~ In (device_id t) device_pool
      /\ exists k, 80000 <= k <= 89999
                   /\ device_id t = "DEV_NEW_" +:+ format_d k).
Proof.
  intros t. subst t.
  destruct (generate_transaction_run s) as (t0 & Hs & Ht & _).
  rewrite Ht, finalize_fees_fraud_type, finalize_fees_device_id. clear Ht.
  split; intros Hlabel; sampled_cases Hs; try congruence;
    destruct Hrest as (k & Hk & Hdev); rewrite Hdev;
    (split; [apply new_device_not_in_pool | exists k; auto]).
Qed.

Lemma new_device_outside_pool_witness :
  ~ In (device_id (fst (generate_transaction state_repeated_device)))
      device_pool.
Proof.
  apply (proj1 (new_device_outside_pool state_repeated_device)).
  vm_compute. reflexivity.
Defined.

(** ** The burst at the window boundary *)

(** C2 (evaluation at the failing input). The account has no recorded
    activity, the record is a money-laundering record, and its frequency is
    15: the instant jittered by 300 seconds is not later than [now - 300]
    and is pruned by the tracker call that follows the burst. *)
Theorem money_laundering_burst_at_boundary :
  let t := fst (generate_transaction state_burst_boundary) in
  recent_activity (self state_burst_boundary) !! account_id t = None
  /\ fraud_type t = Some "money_laundering"
  /\ transaction_frequency_5min t = 15.
Proof. vm_compute. repeat split. Qed.

(** ** The fraud gate and the archetype draw *)

Lemma generate_transaction_unfold (s : State) :
  let u := fst (random_random s) in
  let s1 := snd (random_random s) in
  let r := (if Qltb u (fraud_injection_rate (current_config s))
            then bind (random_choices "" fraud_types [30; 25; 25; 20])
                   fraud_dispatch
            else _generate_normal_transaction) s1 in
  generate_transaction s
  = (finalize_fees (fst r), snd (increment_counter (snd r))).
Proof.
  cbn zeta. unfold generate_transaction.
  rewrite bind_run. rewrite bind_run.
  assert (Hcfg : fst (get_config (snd (random_random s))) = current_config s)
    by (destruct s; reflexivity).
  assert (Hst : snd (get_config (snd (random_random s)))
                = snd (random_random s)) by reflexivity.
  rewrite Hcfg, Hst. rewrite bind_run. rewrite bind_run.
  unfold ret. reflexivity.
Qed.

Lemma run_yields {A} (m : M A) (R : A -> Prop) (s : State) :
  yields (fun _ => True) (transaction_counter (self s)) (current_config s)
    m R ->
  R (fst (m s)).
Proof. intros H. apply (H s). repeat split. Qed.

Lemma normal_transaction_label (s : State) :
  is_fraud (fst (_generate_normal_transaction s)) = false
  /\ fraud_type (fst (_generate_normal_transaction s)) = None.
Proof.
  destruct (run_yields _ _ s
              (yields_normal (fun _ => True) (fun _ => True)
                 ltac:(auto) ltac:(auto) ltac:(auto) ltac:(auto) ltac:(auto)
                 _ _))
    as ((_ & _ & Hty & Hfr) & _).
  auto.
Qed.

Lemma fraud_dispatch_label (f : string) (s : State) :
  In f fraud_types ->
  is_fraud (fst (fraud_dispatch f s)) = true
  /\ fraud_type (fst (fraud_dispatch f s)) = Some f.
Proof.
  intros [<- | [<- | [<- | [<- | []]]]]; unfold fraud_dispatch;
    cbn [String.eqb Ascii.eqb Bool.eqb andb].
  - destruct (run_yields _ _ s
                (yields_money_laundering (fun _ => True) (fun _ => True)
                   ltac:(auto) ltac:(auto) ltac:(auto) ltac:(auto)
                   ltac:(auto) _ _))
      as ((_ & _ & Hty & Hfr) & _). auto.
  - destruct (run_yields _ _ s
                (yields_account_takeover (fun _ => True) (fun _ => True)
                   ltac:(auto) ltac:(auto) ltac:(auto) ltac:(auto)
                   ltac:(auto) _ _))
      as ((_ & _ & Hty & Hfr) & _). auto.
  - destruct (run_yields _ _ s
                (yields_loan_fraud (fun _ => True) (fun _ => True)
                   ltac:(auto) ltac:(auto) ltac:(auto) ltac:(auto)
                   ltac:(auto) _ _))
      as ((_ & _ & Hty & Hfr) & _). auto.
  - destruct (run_yields _ _ s
                (yields_fee_manipulation (fun _ => True) (fun _ => True)
                   ltac:(auto) ltac:(auto) ltac:(auto) ltac:(auto)
                   ltac:(auto) _ _))
      as ((_ & _ & Hty & Hfr) & _). auto.
Qed.


Lemma random_random_range (s : State) :
  (0 <= fst (random_random s) < 1)%Q.
Proof.
  unfold random_random. rewrite bind_run. unfold ret. cbn [fst].
  apply random_unit_interval.
Qed.

Lemma random_choices_archetype (s : State) :
  fst (random_choices "" fraud_types [30; 25; 25; 20] s)
  = archetype_of (fst (random_random s)).
Proof.
  unfold random_choices. rewrite bind_run. unfold ret. reflexivity.
Qed.

Lemma archetype_of_In (v : Q) : In (archetype_of v) fraud_types.
Proof.
  unfold archetype_of. apply nth_In.
  match goal with
  | |- context [bisect ?a ?x ?h] => pose proof (bisect_le a x h)
  end.
  cbn [fraud_types length]. lia.
Qed.

(** The label of a generated record, from the gate draw [u] and the
    archetype draw [v]. *)
Lemma generate_transaction_label (s : State) :
  let rate := fraud_injection_rate (current_config s) in
  let u := fst (random_random s) in
  let v := fst (random_random (snd (random_random s))) in
  let t := fst (generate_transaction s) in
  (Qltb u rate = true ->
   is_fraud t = true /\ fraud_type t = Some (archetype_of v))
  /\ (Qltb u rate = false -> is_fraud t = false /\ fraud_type t = None).
Proof.
  cbn zeta. rewrite generate_transaction_unfold. cbn [fst].
  rewrite finalize_fees_is_fraud, finalize_fees_fraud_type.
  split; intros E; rewrite E.
  - rewrite bind_run, random_choices_archetype.
    apply fraud_dispatch_label. apply archetype_of_In.
  - apply normal_transaction_label.
Qed.

Lemma for_range_Forall {A} (I : State -> Prop) (P : A -> Prop) (body : M A) :
  (forall s, I s -> P (fst (body s)) /\ I (snd (body s))) ->
  forall n s, I s -> Forall P (fst (for_range n body s)).
Proof.
  intros Hbody. induction n as [|n IH]; intros s Hs.
  - constructor.
  - rewrite for_range_S. cbn [fst]. destruct (Hbody s Hs) as [HP HI].
    constructor; [exact HP | apply IH; exact HI].
Qed.



(** ** Identifiers across consecutive calls *)

Lemma generate_transaction_id (s : State) :
  transaction_id (fst (generate_transaction s))
  = "TXN_" +:+ format_0d 8 (transaction_counter (self s)).
Proof.
  destruct (generate_transaction_run s) as (t0 & Hs & Ht & _).
  rewrite Ht, finalize_fees_transaction_id.
  sampled_cases Hs; exact Hid.
Qed.

Lemma generate_transaction_counter (s : State) :
  transaction_counter (self (snd (generate_transaction s)))
  = transaction_counter (self s) + 1.
Proof. destruct (generate_transaction_run s) as (t0 & _ & _ & Hc & _). exact Hc. Qed.

Lemma counters_bounds (n : nat) :
  forall c x, In x (counters c n) -> c <= x < c + Z.of_nat n.
Proof.
  induction n as [|n IH]; intros c x; cbn [counters].
  - intros [].
  - intros [<- | H]; [lia|]. apply IH in H. lia.
Qed.

Lemma counters_sorted (n : nat) :
  forall c, StronglySorted Z.lt (counters c n).
Proof.
  induction n as [|n IH]; intros c; cbn [counters]; constructor.
  - apply IH.
  - apply List.Forall_forall. intros x Hx. apply counters_bounds in Hx. lia.
Qed.

Lemma counters_ids_NoDup (n : nat) :
  forall c, List.NoDup (map (fun k => "TXN_" +:+ format_0d 8 k) (counters c n)).
Proof.
  induction n as [|n IH]; intros c; cbn [counters map]; constructor.
  - intros H. apply in_map_iff in H. destruct H as (k & E & Hk).
    apply append_inj_l, format_0d_inj in E. apply counters_bounds in Hk. lia.
  - apply IH.
Qed.

Lemma generate_transactions_ids (n : nat) :
  forall s,
    map transaction_id (fst (for_range n generate_transaction s))
    = map (fun k => "TXN_" +:+ format_0d 8 k)
        (counters (transaction_counter (self s)) n)
    /\ transaction_counter (self (snd (for_range n generate_transaction s)))
       = transaction_counter (self s) + Z.of_nat n.
Proof.
  induction n as [|n IH]; intros s.
  - cbn. split; [reflexivity | lia].
  - rewrite for_range_S. cbn [fst snd map counters].
    destruct (IH (snd (generate_transaction s))) as [Hids Hc].
    rewrite Hids, Hc, generate_transaction_id, generate_transaction_counter.
    split; [reflexivity | lia].
Qed.

(** C5. The identifiers returned by [n] consecutive calls are ["TXN_"]
    followed by the zero-padded counter values [c, c + 1, ..., c + n - 1],
    where [c] is the counter before the first call.  They are pairwise
    distinct; read as numbers they are [c, ..., c + n - 1], a strictly
    increasing sequence; and the counter ends at [c + n], one increment per
    record. *)
Theorem transaction_ids_distinct_and_increasing (n : nat) (s : State) :
  let ts := fst (for_range n generate_transaction s) in
  let c := transaction_counter (self s) in
  length ts = n
  /\ map transaction_id ts
     = map (fun k => "TXN_" +:+ format_0d 8 k) (counters c n)
  /\ List.NoDup (map transaction_id ts)
  /\ map (fun t => txn_number (transaction_id t)) ts
     = map Some (counters c n)
  /\ StronglySorted Z.lt (counters c n)
  /\ transaction_counter (self (snd (for_range n generate_transaction s)))
     = c + Z.of_nat n
  /\ transaction_counter (self (snd (generate_transaction s))) = c + 1.
Proof.
  cbn zeta. destruct (generate_transactions_ids n s) as [Hids Hc].
  split; [apply for_range_length|].
  split; [exact Hids|].
  split; [rewrite Hids; apply counters_ids_NoDup|].
  split.
  { rewrite <- (map_map transaction_id txn_number), Hids, map_map.
    apply map_ext. intros k. apply txn_number_id. }
  split; [apply counters_sorted|].
  split; [exact Hc | apply generate_transaction_counter].
Qed.

(** ** The batch endpoint *)

Lemma for_range_generate_self (n : nat) (s : State) :
  transaction_counter
    (self (snd (for_range n
                  (bind generate_transaction (fun t => ret (model_dump t))) s)))
  = transaction_counter (self s) + Z.of_nat n.
Proof.
  revert s. induction n as [|n IH]; intros s.
  - cbn. lia.
  - rewrite for_range_S. cbn [snd]. rewrite IH, bind_run. unfold ret.
    cbn [snd]. rewrite generate_transaction_counter. lia.
Qed.

(** C9. A request for more than 1000 transactions is answered by the HTTP
    error 400 and leaves the whole state as it was: no record is generated,
    no draw is consumed.  A request for [count <= 1000] succeeds with
    [Z.to_nat count] records (that is, [count] records when
    [0 <= count]), reports their number in the field [count], and moves the
    counter on by that number. *)
Theorem batch_limit (count : Z) (s : State) :
  (1000 < count ->
   get_transactions_batch count s
   = (HTTPException 400 "Maximum 1000 transactions per request", s))
  /\ (count <= 1000 ->
      exists body,
        fst (get_transactions_batch count s) = HTTPOk body
        /\ length (resp_transactions body) = Z.to_nat count
        /\ resp_count body = Z.of_nat (Z.to_nat count)
        /\ (0 <= count ->
            Z.of_nat (length (resp_transactions body)) = count
            /\ resp_count body = count)
        /\ transaction_counter
             (self (snd (get_transactions_batch count s)))
           = transaction_counter (self s) + Z.of_nat (Z.to_nat count)).
Proof.
  unfold get_transactions_batch. split; intros H.
  - replace (count >? 1000)%Z with true by lia. reflexivity.
  - replace (count >? 1000)%Z with false by lia.
    rewrite !bind_run. unfold ret. cbn [fst snd]. eexists. split; [reflexivity|].
    cbn [resp_transactions resp_count]. rewrite for_range_length.
    split; [reflexivity|]. split; [reflexivity|]. split; [lia|].
    rewrite <- for_range_generate_self. reflexivity.
Qed.

Lemma batch_limit_witness :
  get_transactions_batch 1001 (state_of default_config (world_of [] 1 0))
  = (HTTPException 400 "Maximum 1000 transactions per request",
     state_of default_config (world_of [] 1 0))
  /\ exists body,
       fst (get_transactions_batch 3 (state_of default_config (world_of [] 1 0)))
       = HTTPOk body
       /\ length (resp_transactions body) = 3%nat.
Proof.
  split.
  - apply (batch_limit 1001 (state_of default_config (world_of [] 1 0))). lia.
  - destruct (proj2 (batch_limit 3 (state_of default_config (world_of [] 1 0)))
                ltac:(lia)) as (body & Hbody & Hlen & _).
    exists body. split; [exact Hbody | exact Hlen].
Defined.

(** C10. A request for [count <= 0] raises nothing: it succeeds with an
    empty list and [count] 0, generates no record, and leaves the generator
    (counter and activity map) and the random streams as they were; only
    the clock is read, for the timestamp of the response. *)
Theorem batch_nonpositive (count : Z) (s : State) :
  count <= 0 ->
  fst (get_transactions_batch count s)
  = HTTPOk (mkBatchResponse [] 0
              (dt_isoformat (datetime_now (world s) 0%nat)))
  /\ self (snd (get_transactions_batch count s)) = self s
  /\ current_config (snd (get_transactions_batch count s)) = current_config s
  /\ py_random (world (snd (get_transactions_batch count s)))
     = py_random (world s)
  /\ np_lognormal (world (snd (get_transactions_batch count s)))
     = np_lognormal (world s).
Proof.
  intros H. unfold get_transactions_batch.
  replace (count >? 1000)%Z with false by lia.
  replace (Z.to_nat count) with 0%nat by lia.
  destruct s as [g cfg w]. repeat split.
Qed.

Lemma batch_nonpositive_witness :
  fst (get_transactions_batch (-5) (state_of default_config (world_of [] 1 0)))
  = HTTPOk (mkBatchResponse [] 0 (dt_isoformat noon)).
Proof.
  apply (batch_nonpositive (-5) (state_of default_config (world_of [] 1 0))).
  lia.
Defined.

(** ** The burst followed by the tracker call, in closed form *)

Lemma append_jittered_run (account_id : string) (s : State) :
  append_jittered account_id s =
  (tt,
   mkState
     (mkGenerator (transaction_counter (self s))
        (<[account_id :=
             (default [] (recent_activity (self s) !! account_id)
              ++ burst_instants (world s) 1)%list]>
           (recent_activity (self s))))
     (current_config s) (after_jitter (world s))).
Proof.
  destruct s as [[c ra] cfg w].
  unfold append_jittered, ensure_entry, set_activity, get_activity,
    get_self, put_self, time_now, random_randint, randbelow, next_word,
    bind, ret, after_jitter, burst_instants.
  cbn [self world current_config recent_activity transaction_counter
       py_random np_lognormal time_time datetime_now fst snd seq map].
  destruct (ra !! account_id) as [l|] eqn:E;
    cbn [self world current_config recent_activity transaction_counter
         py_random np_lognormal time_time datetime_now fst snd default];
    rewrite ?E, ?lookup_insert_eq, ?insert_insert_eq; reflexivity.
Qed.

Lemma burst_instants_S (w : World) (n : nat) :
  burst_instants w (S n)
  = (burst_instants w 1 ++ burst_instants (after_jitter w) n)%list.
Proof.
  unfold burst_instants. cbn [seq map app]. f_equal.
  rewrite <- seq_shift, map_map. reflexivity.
Qed.

Lemma burst_run (account_id : string) (n : nat) :
  forall s,
    let s' := snd (for_range n (append_jittered account_id) s) in
    default [] (recent_activity (self s') !! account_id)
    = (default [] (recent_activity (self s) !! account_id)
       ++ burst_instants (world s) n)%list
    /\ (forall i, time_time (world s') i = time_time (world s) (n + i)%nat).
Proof.
  induction n as [|n IH]; intros s; cbn zeta.
  - cbn. rewrite app_nil_r. split; reflexivity.
  - rewrite for_range_S. cbn [snd]. rewrite append_jittered_run.
    cbn [snd]. destruct (IH (mkState
        (mkGenerator (transaction_counter (self s))
           (<[account_id :=
                (default [] (recent_activity (self s) !! account_id)
                 ++ burst_instants (world s) 1)%list]>
              (recent_activity (self s))))
        (current_config s) (after_jitter (world s)))) as [Hl Ht].
    cbn zeta in Hl, Ht. rewrite Hl. split.
    + cbn [self recent_activity world]. rewrite lookup_insert_eq.
      cbn [default from_option]. unfold id.
      rewrite (burst_instants_S (world s) n), app_assoc. reflexivity.
    + intros i. rewrite Ht. reflexivity.
Qed.

(** The count returned by the tracker call that follows a burst of [n]
    instants: the instants still later than [now - 300], plus one. *)
Lemma burst_then_count (account_id : string) (n : nat) (s : State) :
  let now := time_time (world s) n in
  let window := (default [] (recent_activity (self s) !! account_id)
                 ++ burst_instants (world s) n)%list in
  fst (_update_account_activity account_id
         (snd (for_range n (append_jittered account_id) s)))
  = Z.of_nat (length (List.filter (fun t => Qltb (now - 300) t) window)) + 1.
Proof.
  cbn zeta. rewrite update_account_activity_run. cbn [fst].
  destruct (burst_run account_id n s) as [Hl Ht]. cbn zeta in Hl, Ht.
  rewrite Hl, Ht, Nat.add_0_r. unfold pruned_window.
  rewrite length_app. cbn [length]. lia.
Qed.

Lemma result_bind {A B} (m : M A) (k : A -> M B) (P : B -> Prop) (s : State) :
  (forall a s', P (fst (k a s'))) -> P (fst (bind m k s)).
Proof. intros H. rewrite bind_run. apply H. Qed.

(** The frequency of a money-laundering record is the count returned by the
    tracker call after the burst. *)
Lemma money_laundering_frequency (s : State) :
  let account := fst (random_choice "" account_pool s) in
  let s1 := snd (datetime_dot_now (snd (random_choice "" account_pool s))) in
  let n := Z.to_nat (fst (random_randint 15 25 s1)) in
  let s2 := snd (random_randint 15 25 s1) in
  transaction_frequency_5min (fst (_generate_money_laundering_transaction s))
  = fst (_update_account_activity account
           (snd (for_range n (append_jittered account) s2))).
Proof.
  cbn zeta. unfold _generate_money_laundering_transaction.
  do 5 rewrite bind_run.
  repeat (apply result_bind; intros ? ?).
  reflexivity.
Qed.

(** When the account is unseen and every instant of the burst is still
    later than [now - 300] at the tracker call, the frequency is the size
    of the burst plus one, hence at least 16. *)
Lemma money_laundering_burst_inside_window (s : State) :
  let account := fst (random_choice "" account_pool s) in
  let s1 := snd (datetime_dot_now (snd (random_choice "" account_pool s))) in
  let n := Z.to_nat (fst (random_randint 15 25 s1)) in
  let s2 := snd (random_randint 15 25 s1) in
  recent_activity (self s) !! account = None ->
  (forall t, In t (burst_instants (world s2) n) ->
             (time_time (world s2) n - 300 < t)%Q) ->
  transaction_frequency_5min (fst (_generate_money_laundering_transaction s))
  = Z.of_nat n + 1
  /\ 16 <= transaction_frequency_5min
             (fst (_generate_money_laundering_transaction s)).
Proof.
  cbn zeta. intros Hnew Hin.
  rewrite money_laundering_frequency, burst_then_count.
  assert (Hself : recent_activity
                    (self (snd (random_randint 15 25
                             (snd (datetime_dot_now
                                (snd (random_choice "" account_pool s)))))))
                  = recent_activity (self s))
    by (destruct s; reflexivity).
  rewrite Hself, Hnew. cbn [default from_option app].
  rewrite filter_all by (intros t Ht; apply Qltb_lt, Hin, Ht).
  unfold burst_instants. rewrite length_map, length_seq.
  split; [reflexivity|].
  assert (Hn : 15 <= fst (random_randint 15 25
                            (snd (datetime_dot_now
                               (snd (random_choice "" account_pool s))))) <= 25).
  { unfold random_randint, randbelow. rewrite !bind_run. unfold ret.
    cbn [fst]. pose proof (Z.mod_pos_bound
      (fst (next_word (snd (datetime_dot_now
                         (snd (random_choice "" account_pool s))))))
      (25 - 15 + 1) ltac:(lia)). lia. }
  lia.
Qed.

(** * Further properties of the engine, the service, the export and the relay *)

(** ** The ranges of the samplers' draws *)

Lemma py_max_lower (a x : Q) : (a <= py_max a x)%Q.
Proof.
  unfold py_max. destruct (Qltb a x) eqn:E.
  - apply Qltb_lt in E. lra.
  - lra.
Qed.

Ltac trivial_world := solve [intros; exact I].

Ltac fprim :=
  first
    [ apply yields_choice;
      [ trivial_world
      | first [ exact account_pool_nonempty | exact device_pool_nonempty
              | discriminate ] ]
    | apply yields_choices; [ trivial_world | discriminate ]
    | apply yields_randint; [ trivial_world | lia ]
    | apply yields_uniform; [ trivial_world | lra ]
    | apply yields_random_random; trivial_world
    | apply (yields_lognormal (fun _ => True) (fun _ => True)); trivial_world
    | apply yields_datetime_now; trivial_world
    | apply yields_update_account_activity; trivial_world
    | apply yields_txn_id
    | apply yields_for_range; apply yields_append_jittered; trivial_world ].

Ltac fstep :=
  lazymatch goal with
  | |- yields _ _ _ (bind _ _) _ =>
      eapply yields_bind; [ fprim | intros ? ? ]
  | |- yields _ _ _ (ret _) _ => apply yields_ret
  end.

Ltac ffinish :=
  cbv beta in *;
  unfold common_fields, archetype_fields, normal_fields,
    money_laundering_fields, account_takeover_fields, loan_fraud_fields,
    fee_manipulation_fields;
  cbn [account_id branch_id transaction_amount_vnd transaction_hour
       location_city device_id biometric_failure_count
       transaction_frequency_5min total_loans_vnd num_transactions
       total_deposits_vnd fraud_type];
  repeat split; subst; eauto using py_max_lower; try tauto; try lia.

Section Fields.

Variable c : Z.
Variable cfg : StreamConfig.

Lemma yields_normal_fields :
  yields (fun _ => True) c cfg _generate_normal_transaction
    (fun t => common_fields t /\ fraud_type t = None /\ normal_fields t).
Proof. unfold _generate_normal_transaction. repeat fstep. ffinish. Qed.

Lemma yields_money_laundering_fields :
  yields (fun _ => True) c cfg _generate_money_laundering_transaction
    (fun t => common_fields t /\ fraud_type t = Some "money_laundering"
              /\ money_laundering_fields t).
Proof.
  unfold _generate_money_laundering_transaction. repeat fstep. ffinish.
Qed.

Lemma yields_account_takeover_fields :
  yields (fun _ => True) c cfg _generate_account_takeover_transaction
    (fun t => common_fields t /\ fraud_type t = Some "account_takeover"
              /\ account_takeover_fields t).
Proof.
  unfold _generate_account_takeover_transaction. repeat fstep. ffinish.
Qed.

Lemma yields_loan_fraud_fields :
  yields (fun _ => True) c cfg _generate_loan_fraud_transaction
    (fun t => common_fields t /\ fraud_type t = Some "loan_fraud"
              /\ loan_fraud_fields t).
Proof. unfold _generate_loan_fraud_transaction. repeat fstep. ffinish. Qed.

Lemma yields_fee_manipulation_fields :
  yields (fun _ => True) c cfg _generate_fee_manipulation_transaction
    (fun t => common_fields t /\ fraud_type t = Some "fee_manipulation"
              /\ fee_manipulation_fields t).
Proof.
  unfold _generate_fee_manipulation_transaction. repeat fstep. ffinish.
Qed.

End Fields.

Lemma finalize_fees_stable (P : Transaction -> Prop) (t : Transaction) :
  (forall fee, P t -> P (set_transaction_fees_vnd t fee)) ->
  P t -> P (finalize_fees t).
Proof.
  intros H Ht. unfold finalize_fees.
  destruct (Qeq_bool (transaction_fees_vnd t) 0); auto.
Qed.

Lemma finalize_fees_fields (t : Transaction) :
  common_fields t /\ archetype_fields t ->
  common_fields (finalize_fees t) /\ archetype_fields (finalize_fees t).
Proof.
  apply (finalize_fees_stable
           (fun t => common_fields t /\ archetype_fields t)).
  intros fee H. exact H.
Qed.

Lemma sampler_fields {A} (m : M A) (R R' : A -> Prop) (s : State) :
  (forall c cfg, yields (fun _ => True) c cfg m R) ->
  (forall a, R a -> R' a) -> R' (fst (m s)).
Proof. intros H HR. apply HR. apply run_yields. apply H. Qed.

(** The fields of a generated record, by its label. *)
Lemma generate_transaction_fields (s : State) :
  common_fields (fst (generate_transaction s))
  /\ archetype_fields (fst (generate_transaction s)).
Proof.
  rewrite generate_transaction_unfold. cbn [fst].
  apply finalize_fees_fields.
  destruct (Qltb _ _).
  - rewrite bind_run. unfold fraud_dispatch.
    repeat match goal with
           | |- context [if ?b then _ else _] => destruct b
           end.
    + apply (sampler_fields _ _
               (fun t => common_fields t /\ archetype_fields t) _
               yields_money_laundering_fields).
      unfold archetype_fields. tauto.
    + apply (sampler_fields _ _
               (fun t => common_fields t /\ archetype_fields t) _
               yields_account_takeover_fields).
      unfold archetype_fields. tauto.
    + apply (sampler_fields _ _
               (fun t => common_fields t /\ archetype_fields t) _
               yields_loan_fraud_fields).
      unfold archetype_fields. tauto.
    + apply (sampler_fields _ _
               (fun t => common_fields t /\ archetype_fields t) _
               yields_fee_manipulation_fields).
      unfold archetype_fields. tauto.
  - apply (sampler_fields _ _
             (fun t => common_fields t /\ archetype_fields t) _
             yields_normal_fields).
    unfold archetype_fields. tauto.
Qed.

Lemma archetype_fields_of (t : Transaction) :
  archetype_fields t ->
  (fraud_type t = None -> normal_fields t)
  /\ (fraud_type t = Some "money_laundering" -> money_laundering_fields t)
  /\ (fraud_type t = Some "account_takeover" -> account_takeover_fields t)
  /\ (fraud_type t = Some "loan_fraud" -> loan_fraud_fields t)
  /\ (fraud_type t = Some "fee_manipulation" -> fee_manipulation_fields t).
Proof.
  intros [[E H] | [[E H] | [[E H] | [[E H] | [E H]]]]];
    rewrite E; (split; [|split; [|split; [|split]]]); intros E';
    first [exact H | discriminate E'].
Qed.

(** ** The fields of a generated record *)

(** X1. A record that [generate_transaction] labels normal has an amount of
    at least 10,000 (the floor that [max] puts under the lognormal draw), a
    city of the eight of the generator, a device of the device pool, 0, 1
    or 2 biometric failures, non-negative loans and between 50 and 500
    transactions. *)
Theorem normal_record_fields (s : State) :
  let t := fst (generate_transaction s) in
  fraud_type t = None ->
  (10000 <= transaction_amount_vnd t)%Q
  /\ In (location_city t) cities
  /\ In (device_id t) device_pool
  /\ In (biometric_failure_count t) [0; 1; 2]
  /\ (0 <= total_loans_vnd t)%Q
  /\ 50 <= num_transactions t <= 500.
Proof.
  cbn zeta. intros H.
  destruct (generate_transaction_fields s) as [_ Hf].
  apply archetype_fields_of in Hf. apply Hf, H.
Qed.

Lemma normal_record_fields_witness :
  fraud_type (fst (generate_transaction state_normal)) = None
  /\ 50 <= num_transactions (fst (generate_transaction state_normal)) <= 500.
Proof.
  assert (H : fraud_type (fst (generate_transaction state_normal)) = None)
    by (vm_compute; reflexivity).
  split; [exact H|]. apply (normal_record_fields state_normal H).
Defined.

(** X2. A record labelled account takeover has an amount in
    [50,000,000, 500,000,000), an hour among 2, 3, 4, 22 and 23, a city
    that is "Unknown", "Foreign_Location" or one of the eight, between 3
    and 5 biometric failures, non-negative loans and between 100 and 300
    transactions. *)
Theorem account_takeover_record_fields (s : State) :
  let t := fst (generate_transaction s) in
  fraud_type t = Some "account_takeover" ->
  (50000000 <= transaction_amount_vnd t < 500000000)%Q
  /\ In (transaction_hour t) [2; 3; 4; 22; 23]
  /\ In (location_city t) (["Unknown"; "Foreign_Location"] ++ cities)
  /\ 3 <= biometric_failure_count t <= 5
  /\ (0 <= total_loans_vnd t)%Q
  /\ 100 <= num_transactions t <= 300.
Proof.
  cbn zeta. intros H.
  destruct (generate_transaction_fields s) as [_ Hf].
  apply archetype_fields_of in Hf.
  destruct Hf as (_ & _ & Hf & _). specialize (Hf H).
  unfold account_takeover_fields in Hf. tauto.
Qed.

Lemma account_takeover_record_fields_witness :
  fraud_type (fst (generate_transaction state_account_takeover))
  = Some "account_takeover"
  /\ 3 <= biometric_failure_count
            (fst (generate_transaction state_account_takeover)) <= 5.
Proof.
  assert (H : fraud_type (fst (generate_transaction state_account_takeover))
              = Some "account_takeover") by (vm_compute; reflexivity).
  split; [exact H|]. apply (account_takeover_record_fields _ H).
Defined.

(** X3. A record labelled loan fraud has an amount in
    [100,000,000, 800,000,000), loans in [500,000,000, 2,000,000,000), a
    city of the eight, 0, 1 or 2 biometric failures and between 1 and 50
    transactions. *)
Theorem loan_fraud_record_fields (s : State) :
  let t := fst (generate_transaction s) in
  fraud_type t = Some "loan_fraud" ->
  (100000000 <= transaction_amount_vnd t < 800000000)%Q
  /\ (500000000 <= total_loans_vnd t < 2000000000)%Q
  /\ In (location_city t) cities
  /\ In (biometric_failure_count t) [0; 1; 2]
  /\ 1 <= num_transactions t <= 50.
Proof.
  cbn zeta. intros H.
  destruct (generate_transaction_fields s) as [_ Hf].
  apply archetype_fields_of in Hf.
  destruct Hf as (_ & _ & _ & Hf & _). specialize (Hf H).
  unfold loan_fraud_fields in Hf. tauto.
Qed.

Lemma loan_fraud_record_fields_witness :
  fraud_type (fst (generate_transaction state_loan_fraud)) = Some "loan_fraud"
  /\ 1 <= num_transactions (fst (generate_transaction state_loan_fraud)) <= 50.
Proof.
  assert (H : fraud_type (fst (generate_transaction state_loan_fraud))
              = Some "loan_fraud") by (vm_compute; reflexivity).
  split; [exact H|]. apply (loan_fraud_record_fields _ H).
Defined.

(** X4. The two archetypes that inject a burst draw the rest of the record
    from the pools: a money-laundering record has a city of the eight, a
    device of the device pool, 0 or 1 biometric failures and between 200
    and 800 transactions; a fee-manipulation record has the same but
    between 300 and 1000 transactions. *)
Theorem burst_archetype_record_fields (s : State) :
  let t := fst (generate_transaction s) in
  fraud_type t = Some "money_laundering"
  \/ fraud_type t = Some "fee_manipulation" ->
  In (location_city t) cities
  /\ In (device_id t) device_pool
  /\ In (biometric_failure_count t) [0; 1]
  /\ (0 <= total_loans_vnd t)%Q
  /\ (fraud_type t = Some "money_laundering" ->
      200 <= num_transactions t <= 800)
  /\ (fraud_type t = Some "fee_manipulation" ->
      300 <= num_transactions t <= 1000).
Proof.
  cbn zeta. intros H.
  destruct (generate_transaction_fields s) as [_ Hf].
  apply archetype_fields_of in Hf.
  destruct Hf as (_ & Hml & _ & _ & Hfee).
  destruct H as [H | H].
  - destruct (Hml H) as (_ & _ & Hc & Hd & Hb & Hl & Hn). rewrite H.
    split; [exact Hc|]. split; [exact Hd|]. split; [exact Hb|].
    split; [exact Hl|]. split; intros E; [exact Hn | discriminate E].
  - destruct (Hfee H) as (_ & Hc & Hd & Hb & Hl & Hn). rewrite H.
    split; [exact Hc|]. split; [exact Hd|]. split; [exact Hb|].
    split; [exact Hl|]. split; intros E; [discriminate E | exact Hn].
Qed.

Lemma burst_archetype_record_fields_witness :
  In (biometric_failure_count
        (fst (generate_transaction state_money_laundering))) [0; 1]
  /\ In (biometric_failure_count
           (fst (generate_transaction state_fee_manipulation))) [0; 1].
Proof.
  split.
  - apply (burst_archetype_record_fields state_money_laundering).
    left. vm_compute. reflexivity.
  - apply (burst_archetype_record_fields state_fee_manipulation).
    right. vm_compute. reflexivity.
Defined.

(** X5. Whatever the archetype, the configuration and the draws, a generated
    record has an account of the account pool, a branch between 1 and 10,
    a frequency of at least 1, an amount of at least 10,000, between 0 and
    5 biometric failures, between 1 and 1000 transactions, non-negative
    loans and deposits, and a city that is one of the eight, "Unknown" or
    "Foreign_Location". *)
Theorem every_record_fields (s : State) :
  let t := fst (generate_transaction s) in
  In (account_id t) account_pool
  /\ 1 <= branch_id t <= 10
  /\ 1 <= transaction_frequency_5min t
  /\ (10000 <= transaction_amount_vnd t)%Q
  /\ 0 <= biometric_failure_count t <= 5
  /\ 1 <= num_transactions t <= 1000
  /\ (0 <= total_loans_vnd t)%Q
  /\ (0 <= total_deposits_vnd t)%Q
  /\ In (location_city t) (["Unknown"; "Foreign_Location"] ++ cities).
Proof.
  cbn zeta.
  destruct (generate_transaction_fields s) as [(Ha & Hb & Hf & Hd) Hfields].
  assert (Hbio : forall l, In (biometric_failure_count
                                 (fst (generate_transaction s))) l ->
                           Forall (fun x => 0 <= x <= 5) l ->
                           0 <= biometric_failure_count
                                  (fst (generate_transaction s)) <= 5).
  { intros l Hin Hall. rewrite List.Forall_forall in Hall. auto. }
  assert (Hcity : In (location_city (fst (generate_transaction s))) cities ->
                  In (location_city (fst (generate_transaction s)))
                     (["Unknown"; "Foreign_Location"] ++ cities)).
  { intros H. apply in_or_app. right. exact H. }
  destruct Hfields as [[_ H] | [[_ H] | [[_ H] | [[_ H] | [_ H]]]]];
    unfold normal_fields, money_laundering_fields, account_takeover_fields,
      loan_fraud_fields, fee_manipulation_fields in H;
    repeat match goal with
           | H : _ /\ _ |- _ => destruct H
           end;
    repeat split; try assumption; try lra; try lia; auto;
    try (eapply Hbio; [eassumption | repeat constructor; lia]).
Qed.

(** ** Computations that leave the generator alone *)

Lemma keeps_self_ret {A} (a : A) : keeps_self (ret a).
Proof. intros s. reflexivity. Qed.

Lemma keeps_self_bind {A B} (m : M A) (k : A -> M B) :
  keeps_self m -> (forall a, keeps_self (k a)) -> keeps_self (bind m k).
Proof. intros Hm Hk s. rewrite bind_run, Hk, Hm. reflexivity. Qed.

Lemma keeps_self_next_word : keeps_self next_word.
Proof. intros s. reflexivity. Qed.

Lemma keeps_self_random_random : keeps_self random_random.
Proof.
  apply keeps_self_bind; [apply keeps_self_next_word|].
  intros. apply keeps_self_ret.
Qed.

Lemma keeps_self_randint (a b : Z) : keeps_self (random_randint a b).
Proof.
  unfold random_randint, randbelow.
  repeat (apply keeps_self_bind; [|intros; try apply keeps_self_ret]).
  apply keeps_self_next_word.
Qed.

Lemma keeps_self_choice {A} (d : A) (l : list A) :
  keeps_self (random_choice d l).
Proof.
  unfold random_choice, randbelow.
  repeat (apply keeps_self_bind; [|intros; try apply keeps_self_ret]).
  apply keeps_self_next_word.
Qed.

Lemma keeps_self_uniform (a b : Q) : keeps_self (random_uniform a b).
Proof.
  apply keeps_self_bind; [apply keeps_self_random_random|].
  intros. apply keeps_self_ret.
Qed.

Lemma keeps_self_choices {A} (d : A) (p : list A) (w : list Z) :
  keeps_self (random_choices d p w).
Proof.
  apply keeps_self_bind; [apply keeps_self_random_random|].
  intros. apply keeps_self_ret.
Qed.

Lemma keeps_self_lognormal (mean sigma : Q) :
  keeps_self (np_random_lognormal mean sigma).
Proof. intros s. reflexivity. Qed.

Lemma keeps_self_datetime_now : keeps_self datetime_dot_now.
Proof. intros s. reflexivity. Qed.

Lemma keeps_self_txn_id : keeps_self txn_id.
Proof. intros s. reflexivity. Qed.

Lemma tail_of_ret (a : string) (f : Z) (t : Transaction) :
  account_id t = a -> transaction_frequency_5min t = f ->
  tail_of a f (ret t).
Proof. intros Ha Hf s. repeat split; assumption. Qed.

Lemma tail_of_bind {A} (a : string) (f : Z) (m : M A)
      (k : A -> M Transaction) :
  keeps_self m -> (forall x, tail_of a f (k x)) -> tail_of a f (bind m k).
Proof.
  intros Hm Hk s. rewrite bind_run.
  destruct (Hk (fst (m s)) (snd (m s))) as (Hs & Ha & Hf).
  rewrite Hs, Hm. repeat split; assumption.
Qed.

Ltac keeps_self_prim :=
  first
    [ apply keeps_self_choice | apply keeps_self_choices
    | apply keeps_self_randint | apply keeps_self_uniform
    | apply keeps_self_random_random | apply keeps_self_lognormal
    | apply keeps_self_datetime_now | apply keeps_self_txn_id ].

Ltac tail_steps :=
  repeat (apply tail_of_bind; [keeps_self_prim | intros ?]);
  apply tail_of_ret; reflexivity.

Lemma random_choice_In {A} (d : A) (l : list A) (s : State) :
  l <> [] -> In (fst (random_choice d l s)) l.
Proof.
  intros H. apply run_yields. apply yields_choice; [|exact H].
  intros; exact I.
Qed.

Lemma random_randint_range (a b : Z) (s : State) :
  a <= b -> a <= fst (random_randint a b s) <= b.
Proof.
  intros H.
  apply (run_yields _ (fun k => a <= k <= b)).
  apply yields_randint; [|exact H]. intros; exact I.
Qed.

(** A burst writes to the window of its account only and leaves the
    counter alone. *)
Lemma burst_map (a : string) (n : nat) :
  forall s,
    let s' := snd (for_range n (append_jittered a) s) in
    transaction_counter (self s') = transaction_counter (self s)
    /\ forall l, <[a := l]> (recent_activity (self s'))
                 = <[a := l]> (recent_activity (self s)).
Proof.
  induction n as [|n IH]; intros s; cbn zeta.
  - cbn [for_range ret snd]. split; reflexivity.
  - rewrite for_range_S. cbn [snd]. rewrite append_jittered_run. cbn [snd].
    match goal with
    | |- context [for_range n _ ?s1] => destruct (IH s1) as [IH1 IH2]
    end.
    cbn zeta in IH1, IH2. split.
    + rewrite IH1. reflexivity.
    + intros l. rewrite IH2. cbn [self recent_activity].
      apply insert_insert_eq.
Qed.

(** A burst of [n] appended instants followed by the tracker call. *)
Lemma burst_then_update (a : string) (n : nat) (s : State) :
  let r := _update_account_activity a
             (snd (for_range n (append_jittered a) s)) in
  let win := pruned_window (time_time (world s) n)
               (window_of s a ++ burst_instants (world s) n) in
  fst r = Z.of_nat (length win)
  /\ recent_activity (self (snd r)) = <[a := win]> (recent_activity (self s))
  /\ transaction_counter (self (snd r)) = transaction_counter (self s).
Proof.
  cbn zeta. rewrite update_account_activity_run.
  cbn [fst snd self recent_activity transaction_counter].
  destruct (burst_run a n s) as [Hl Ht]. cbn zeta in Hl, Ht.
  destruct (burst_map a n s) as [Hc Hm]. cbn zeta in Hc, Hm.
  rewrite Hl, Ht, Nat.add_0_r, Hm, Hc. unfold window_of.
  repeat split; reflexivity.
Qed.

Lemma pruned_window_nonempty (now : Q) (l : list Q) :
  pruned_window now l <> [].
Proof.
  unfold pruned_window. intros H. apply app_eq_nil in H.
  destruct H; discriminate.
Qed.

(** ** The samplers and the activity map *)

Lemma tracks_of_tail (s s2 : State) (a : string) (n lo hi : nat)
      (tail : M Transaction) :
  self s2 = self s -> In a account_pool -> (lo <= n <= hi)%nat ->
  tail_of a (fst (_update_account_activity a
                    (snd (for_range n (append_jittered a) s2)))) tail ->
  tracks s
    (fst (tail (snd (_update_account_activity a
                       (snd (for_range n (append_jittered a) s2))))))
    (snd (tail (snd (_update_account_activity a
                       (snd (for_range n (append_jittered a) s2))))))
    lo hi 0.
Proof.
  intros Hs Ha Hn T.
  destruct (burst_then_update a n s2) as (Hf & Hm & Hc). cbn zeta in *.
  match goal with
  | |- context [tail ?s3] => destruct (T s3) as (Ts & Ta & Tf)
  end.
  exists (burst_instants (world s2) n), (time_time (world s2) n).
  rewrite Ta, Tf, Ts, Hf, Hm, Hc. unfold window_of. rewrite Hs.
  assert (Hlen : length (burst_instants (world s2) n) = n)
    by (unfold burst_instants; rewrite length_map, length_seq; reflexivity).
  rewrite Hlen.
  repeat split; try assumption; try lia.
Qed.

Lemma tracks_of_tail_plain (s s2 : State) (a : string)
      (tail : M Transaction) :
  self s2 = self s -> In a account_pool ->
  tail_of a (fst (_update_account_activity a s2)) tail ->
  tracks s (fst (tail (snd (_update_account_activity a s2))))
    (snd (tail (snd (_update_account_activity a s2)))) 0 0 0.
Proof.
  intros Hs Ha T.
  apply (tracks_of_tail s s2 a 0 0 0 tail Hs Ha); [lia|exact T].
Qed.

Lemma self_after_choice_datetime {A} (d : A) (l : list A) (s : State) :
  self (snd (datetime_dot_now (snd (random_choice d l s)))) = self s.
Proof. rewrite keeps_self_datetime_now, keeps_self_choice. reflexivity. Qed.

Lemma normal_tracks (s : State) :
  tracks s (fst (_generate_normal_transaction s))
    (snd (_generate_normal_transaction s)) 0 0 0.
Proof.
  unfold _generate_normal_transaction. do 3 rewrite bind_run.
  apply tracks_of_tail_plain.
  - apply self_after_choice_datetime.
  - apply random_choice_In, account_pool_nonempty.
  - tail_steps.
Qed.

Lemma account_takeover_tracks (s : State) :
  tracks s (fst (_generate_account_takeover_transaction s))
    (snd (_generate_account_takeover_transaction s)) 0 0 0.
Proof.
  unfold _generate_account_takeover_transaction. do 3 rewrite bind_run.
  apply tracks_of_tail_plain.
  - apply self_after_choice_datetime.
  - apply random_choice_In, account_pool_nonempty.
  - tail_steps.
Qed.

Lemma loan_fraud_tracks (s : State) :
  tracks s (fst (_generate_loan_fraud_transaction s))
    (snd (_generate_loan_fraud_transaction s)) 0 0 0.
Proof.
  unfold _generate_loan_fraud_transaction. do 3 rewrite bind_run.
  apply tracks_of_tail_plain.
  - apply self_after_choice_datetime.
  - apply random_choice_In, account_pool_nonempty.
  - tail_steps.
Qed.

Lemma money_laundering_tracks (s : State) :
  tracks s (fst (_generate_money_laundering_transaction s))
    (snd (_generate_money_laundering_transaction s)) 15 25 0.
Proof.
  unfold _generate_money_laundering_transaction. do 5 rewrite bind_run.
  apply tracks_of_tail.
  - rewrite keeps_self_randint. apply self_after_choice_datetime.
  - apply random_choice_In, account_pool_nonempty.
  - match goal with
    | |- context [random_randint 15 25 ?s2] =>
        pose proof (random_randint_range 15 25 s2 ltac:(lia))
    end. lia.
  - tail_steps.
Qed.

Lemma fee_manipulation_tracks (s : State) :
  tracks s (fst (_generate_fee_manipulation_transaction s))
    (snd (_generate_fee_manipulation_transaction s)) 12 20 0.
Proof.
  unfold _generate_fee_manipulation_transaction. do 5 rewrite bind_run.
  apply tracks_of_tail.
  - rewrite keeps_self_randint. apply self_after_choice_datetime.
  - apply random_choice_In, account_pool_nonempty.
  - match goal with
    | |- context [random_randint 12 20 ?s2] =>
        pose proof (random_randint_range 12 20 s2 ltac:(lia))
    end. lia.
  - tail_steps.
Qed.

Lemma finalize_fees_account_id (t : Transaction) :
  account_id (finalize_fees t) = account_id t.
Proof. unfold finalize_fees. destruct (Qeq_bool _ _); reflexivity. Qed.

Lemma finalize_fees_frequency (t : Transaction) :
  transaction_frequency_5min (finalize_fees t) = transaction_frequency_5min t.
Proof. unfold finalize_fees. destruct (Qeq_bool _ _); reflexivity. Qed.

Lemma tracks_finish (s0 s : State) (t : Transaction) (s' : State)
      (lo hi : nat) :
  self s0 = self s -> tracks s0 t s' lo hi 0 ->
  tracks s (finalize_fees t) (snd (increment_counter s')) lo hi 1.
Proof.
  intros Hs (extra & now & Hn & Ha & Hf & Hm & Hc).
  exists extra, now.
  rewrite finalize_fees_account_id, finalize_fees_frequency.
  unfold window_of in *. rewrite <- Hs.
  unfold increment_counter, get_self, put_self, bind.
  cbn [snd fst self recent_activity transaction_counter].
  rewrite Hc. repeat split; try assumption; try lia.
Qed.

(** One call of the engine rewrites the window of the record's account and
    moves the counter by one. *)
Lemma generate_transaction_tracks (s : State) :
  tracks s (fst (generate_transaction s)) (snd (generate_transaction s))
    (fst (burst_range (fraud_type (fst (generate_transaction s)))))
    (snd (burst_range (fraud_type (fst (generate_transaction s)))))
    1.
Proof.
  rewrite generate_transaction_unfold. cbn [fst snd].
  rewrite finalize_fees_fraud_type.
  pose proof (keeps_self_random_random s) as Hs1.
  destruct (Qltb _ _).
  - rewrite bind_run.
    pose proof (keeps_self_choices "" fraud_types [30; 25; 25; 20]
                  (snd (random_random s))) as Hs2.
    rewrite Hs1 in Hs2.
    rewrite random_choices_archetype.
    pose proof (archetype_of_In (fst (random_random (snd (random_random s)))))
      as Hin.
    set (f := archetype_of _) in *. clearbody f.
    set (s2 := snd (random_choices _ _ _ _)) in *. clearbody s2.
    destruct (fraud_dispatch_label f s2 Hin) as [_ Hty]. rewrite Hty.
    destruct Hin as [<- | [<- | [<- | [<- | []]]]];
      apply (tracks_finish s2 s _ _ _ _ Hs2).
    + apply money_laundering_tracks.
    + apply account_takeover_tracks.
    + apply loan_fraud_tracks.
    + apply fee_manipulation_tracks.
  - destruct (normal_transaction_label (snd (random_random s))) as [_ Hty].
    rewrite Hty. apply (tracks_finish _ s _ _ _ _ Hs1).
    apply normal_tracks.
Qed.

(** ** The clock of a record *)

Lemma finalize_fees_timestamp (t : Transaction) :
  transaction_timestamp (finalize_fees t) = transaction_timestamp t.
Proof. unfold finalize_fees. destruct (Qeq_bool _ _); reflexivity. Qed.

Ltac clock_steps :=
  do 2 rewrite bind_run;
  repeat (apply result_bind; intros ? ?);
  split; reflexivity.

Lemma normal_clock (s : State) :
  transaction_timestamp (fst (_generate_normal_transaction s))
  = dt_isoformat (datetime_now (world s) 0%nat)
  /\ transaction_hour (fst (_generate_normal_transaction s))
     = dt_hour (datetime_now (world s) 0%nat).
Proof. unfold _generate_normal_transaction. clock_steps. Qed.

Lemma loan_fraud_clock (s : State) :
  transaction_timestamp (fst (_generate_loan_fraud_transaction s))
  = dt_isoformat (datetime_now (world s) 0%nat)
  /\ transaction_hour (fst (_generate_loan_fraud_transaction s))
     = dt_hour (datetime_now (world s) 0%nat).
Proof. unfold _generate_loan_fraud_transaction. clock_steps. Qed.

Lemma fee_manipulation_clock (s : State) :
  transaction_timestamp (fst (_generate_fee_manipulation_transaction s))
  = dt_isoformat (datetime_now (world s) 0%nat)
  /\ transaction_hour (fst (_generate_fee_manipulation_transaction s))
     = dt_hour (datetime_now (world s) 0%nat).
Proof. unfold _generate_fee_manipulation_transaction. clock_steps. Qed.

Lemma money_laundering_clock (s : State) :
  transaction_timestamp (fst (_generate_money_laundering_transaction s))
  = dt_isoformat (datetime_now (world s) 0%nat).
Proof.
  unfold _generate_money_laundering_transaction.
  do 2 rewrite bind_run. repeat (apply result_bind; intros ? ?). reflexivity.
Qed.

Lemma account_takeover_clock (s : State) :
  transaction_timestamp (fst (_generate_account_takeover_transaction s))
  = dt_isoformat (datetime_now (world s) 0%nat).
Proof.
  unfold _generate_account_takeover_transaction.
  do 2 rewrite bind_run. repeat (apply result_bind; intros ? ?). reflexivity.
Qed.

(** X6. The timestamp of every generated record is the ISO form of the one
    clock reading ([datetime.now()]) of its call.  The hour of a record is
    the hour of that same reading unless the record is labelled money
    laundering or account takeover, whose hour is drawn instead. *)
Theorem record_clock (s : State) :
  let t := fst (generate_transaction s) in
  let now := datetime_now (world s) 0%nat in
  transaction_timestamp t = dt_isoformat now
  /\ (fraud_type t <> Some "money_laundering" ->
      fraud_type t <> Some "account_takeover" ->
      transaction_hour t = dt_hour now).
Proof.
  cbn zeta. rewrite generate_transaction_unfold. cbn [fst].
  rewrite finalize_fees_timestamp, finalize_fees_hour,
    finalize_fees_fraud_type.
  destruct (Qltb _ _).
  - rewrite bind_run. rewrite random_choices_archetype.
    pose proof (archetype_of_In (fst (random_random (snd (random_random s)))))
      as Hin.
    set (f := archetype_of _) in *. clearbody f.
    set (s2 := snd (random_choices _ _ _ _)).
    assert (Hw : datetime_now (world s2) = datetime_now (world s))
      by reflexivity.
    clearbody s2.
    destruct (fraud_dispatch_label f s2 Hin) as [_ Hty]. rewrite Hty.
    rewrite <- Hw.
    destruct Hin as [<- | [<- | [<- | [<- | []]]]].
    + split; [apply money_laundering_clock|]. intros H; contradiction H.
      reflexivity.
    + split; [apply account_takeover_clock|]. intros _ H; contradiction H.
      reflexivity.
    + split; [|intros _ _]; apply loan_fraud_clock.
    + split; [|intros _ _]; apply fee_manipulation_clock.
  - set (s1 := snd (random_random s)).
    assert (Hw : datetime_now (world s1) = datetime_now (world s))
      by reflexivity.
    rewrite <- Hw. split; [|intros _ _]; apply normal_clock.
Qed.

Lemma record_clock_witness :
  transaction_hour (fst (generate_transaction state_normal)) = 12.
Proof.
  apply (record_clock state_normal); vm_compute; discriminate.
Defined.

(** ** The activity map across a call *)

Lemma pruned_window_length (now : Q) (l : list Q) :
  (1 <= length (pruned_window now l) <= length l + 1)%nat.
Proof.
  unfold pruned_window. rewrite length_app. cbn [length].
  pose proof (filter_length_le (fun t => Qltb (now - 300) t) l). lia.
Qed.

Lemma burst_range_bounds (label : option string) :
  (snd (burst_range label) <= 25)%nat
  /\ (label <> Some "money_laundering" ->
      (snd (burst_range label) <= 20)%nat)
  /\ (label <> Some "money_laundering" ->
      label <> Some "fee_manipulation" ->
      snd (burst_range label) = 0%nat).
Proof.
  destruct label as [f|]; cbn [burst_range].
  - destruct (String.eqb f "money_laundering") eqn:E1.
    + apply String.eqb_eq in E1. subst f. cbn.
      repeat split; try lia; intros H; contradiction H; reflexivity.
    + destruct (String.eqb f "fee_manipulation") eqn:E2.
      * apply String.eqb_eq in E2. subst f. cbn.
        repeat split; try lia. intros _ H. contradiction H. reflexivity.
      * cbn. repeat split; lia.
  - cbn. repeat split; lia.
Qed.

(** X7. After a call of [generate_transaction] the generator holds a
    non-empty window for the account of the record, and the frequency of
    the record is the number of instants in that window. *)
Theorem frequency_is_stored_window (s : State) :
  let t := fst (generate_transaction s) in
  let s' := snd (generate_transaction s) in
  exists l,
    recent_activity (self s') !! account_id t = Some l
    /\ l <> []
    /\ transaction_frequency_5min t = Z.of_nat (length l).
Proof.
  cbn zeta.
  destruct (generate_transaction_tracks s)
    as (extra & now & _ & _ & Hf & Hm & _).
  eexists. rewrite Hm, lookup_insert_eq.
  split; [reflexivity|]. split; [apply pruned_window_nonempty | exact Hf].
Qed.

(** X8. A call of [generate_transaction] touches the window of one account
    only: the windows of all accounts but the record's are as before, so
    no tracked account is ever dropped from the map. *)
Theorem other_accounts_untouched (s : State) (a : string) :
  let t := fst (generate_transaction s) in
  let s' := snd (generate_transaction s) in
  (a <> account_id t ->
   recent_activity (self s') !! a = recent_activity (self s) !! a)
  /\ (is_Some (recent_activity (self s) !! a) ->
      is_Some (recent_activity (self s') !! a)).
Proof.
  cbn zeta.
  destruct (generate_transaction_tracks s)
    as (extra & now & _ & _ & _ & Hm & _).
  rewrite Hm. split.
  - intros Hne. apply lookup_insert_ne. congruence.
  - intros H.
    destruct (decide (a = account_id (fst (generate_transaction s))))
      as [-> | Hne].
    + rewrite lookup_insert_eq. eauto.
    + rewrite lookup_insert_ne by congruence. exact H.
Qed.

Lemma other_accounts_untouched_witness :
  recent_activity (self (snd (generate_transaction state_normal)))
    !! "ACC_000000"
  = recent_activity (self state_normal) !! "ACC_000000".
Proof.
  apply (other_accounts_untouched state_normal "ACC_000000").
  vm_compute. discriminate.
Defined.

(** X9. The frequency of a generated record is at most the number of
    instants its account had in the map before the call, plus the burst
    that the archetype appends (at most 25 instants for money laundering,
    at most 20 for fee manipulation, none otherwise), plus one.  Hence a
    record of another archetype on an account that the map does not hold
    has frequency 1. *)
Theorem frequency_upper_bound (s : State) :
  let t := fst (generate_transaction s) in
  let before := Z.of_nat (length (window_of s (account_id t))) in
  transaction_frequency_5min t <= before + 26
  /\ (fraud_type t <> Some "money_laundering" ->
      transaction_frequency_5min t <= before + 21)
  /\ (fraud_type t <> Some "money_laundering" ->
      fraud_type t <> Some "fee_manipulation" ->
      transaction_frequency_5min t <= before + 1
      /\ (recent_activity (self s) !! account_id t = None ->
          transaction_frequency_5min t = 1)).
Proof.
  cbn zeta.
  destruct (generate_transaction_tracks s)
    as (extra & now & Hn & _ & Hf & _ & _).
  destruct (burst_range_bounds (fraud_type (fst (generate_transaction s))))
    as (B1 & B2 & B3).
  rewrite Hf.
  match goal with
  | |- context [pruned_window ?n ?l] =>
      pose proof (pruned_window_length n l) as Hlen
  end.
  rewrite length_app in Hlen.
  split; [lia|]. split; [intros H; specialize (B2 H); lia|].
  intros H1 H2. specialize (B3 H1 H2). split; [lia|].
  intros Hnew. unfold window_of in *. rewrite Hnew in *.
  cbn [default from_option length] in *. lia.
Qed.

Lemma frequency_upper_bound_witness :
  transaction_frequency_5min (fst (generate_transaction state_normal)) = 1.
Proof.
  apply (frequency_upper_bound state_normal); vm_compute;
    first [discriminate | reflexivity].
Defined.

(** ** The generator across a session *)

Lemma generator_ok_init : generator_ok generator_init.
Proof.
  split.
  - cbn. rewrite map_size_empty. lia.
  - intros a l H. cbn in H. rewrite lookup_empty in H. discriminate.
Qed.

Lemma generator_ok_generate (s : State) :
  generator_ok (self s) -> generator_ok (self (snd (generate_transaction s))).
Proof.
  intros [Hsize Hin].
  destruct (generate_transaction_tracks s)
    as (extra & now & _ & Ha & _ & Hm & Hc).
  split.
  - rewrite Hm, Hc, map_size_insert.
    destruct (recent_activity (self s) !! _); unfold id; lia.
  - intros a l. rewrite Hm.
    destruct (decide (a = account_id (fst (generate_transaction s))))
      as [-> | Hne].
    + rewrite lookup_insert_eq. intros [= <-].
      split; [exact Ha | apply pruned_window_nonempty].
    + rewrite lookup_insert_ne by congruence. apply Hin.
Qed.

Lemma range_from_length (n : nat) : forall a, length (range_from a n) = n.
Proof. induction n as [|n IH]; intros a; cbn; [|rewrite IH]; reflexivity. Qed.

Lemma account_pool_length : length account_pool = 4000%nat.
Proof.
  unfold account_pool, range. rewrite length_map, range_from_length.
  reflexivity.
Qed.

Lemma range_from_NoDup (n : nat) : forall a, List.NoDup (range_from a n).
Proof.
  induction n as [|n IH]; intros a; cbn [range_from]; constructor.
  - intros H. apply range_from_In in H. lia.
  - apply IH.
Qed.

Lemma account_pool_NoDup : List.NoDup account_pool.
Proof.
  unfold account_pool, range.
  generalize (range_from_NoDup (Z.to_nat (5000 - 1000)) 1000).
  generalize (range_from 1000 (Z.to_nat (5000 - 1000))).
  intros l Hl. induction Hl as [|x l Hx Hl IH]; cbn [map]; constructor.
  - intros H. apply in_map_iff in H. destruct H as (y & Hy & Hin).
    apply append_inj_l, format_0d_inj in Hy. subst y. contradiction.
  - exact IH.
Qed.

(** No more accounts are tracked than the pool has. *)
Lemma generator_ok_size (g : Generator) :
  generator_ok g -> (size (recent_activity g) <= 4000)%nat.
Proof.
  intros [_ Hin].
  rewrite <- account_pool_length.
  rewrite <- (size_dom (D := gset string)).
  rewrite <- (size_list_to_set (C := gset string) account_pool)
    by (apply NoDup_ListNoDup, account_pool_NoDup).
  apply subseteq_size. intros a Ha.
  apply elem_of_dom in Ha. destruct Ha as [l Hl].
  apply elem_of_list_to_set, list_elem_of_In. apply (Hin a l Hl).
Qed.

Lemma generator_ok_batch (n : nat) :
  forall s,
    generator_ok (self s) ->
    generator_ok
      (self (snd (for_range n
                    (bind generate_transaction (fun t => ret (model_dump t)))
                    s))).
Proof.
  induction n as [|n IH]; intros s H.
  - exact H.
  - rewrite for_range_S. cbn [snd]. apply IH.
    rewrite bind_run. unfold ret. cbn [snd]. apply generator_ok_generate, H.
Qed.

(** What a handler does to the generator: the counter moves by the number
    of records in the response, and [generator_ok] is kept. *)
Lemma handle_generator (r : Request) (sv : Api.Service) :
  generator_ok (self (Api.state sv)) ->
  generator_ok (self (Api.state (snd (handle r sv))))
  /\ transaction_counter (self (Api.state (snd (handle r sv))))
     = transaction_counter (self (Api.state sv))
       + Z.of_nat (served (fst (handle r sv))).
Proof.
  intros H. destruct r; unfold handle, respond; cbn [fst snd].
  - cbn. split; [exact H | lia].
  - cbn. split; [exact H | lia].
  - cbn. split; [exact H | lia].
  - unfold Api.get_single_transaction, Api.lift.
    cbn [fst snd Api.state served records length].
    rewrite bind_run. unfold ret. cbn [snd].
    split; [apply generator_ok_generate, H|].
    rewrite generate_transaction_counter. lia.
  - unfold Api.get_transactions_batch, Api.lift.
    cbn [fst snd Api.state]. unfold get_transactions_batch.
    destruct (count >? 1000)%Z.
    + cbn. split; [exact H | lia].
    + rewrite !bind_run. unfold ret, served.
      cbn [fst snd records resp_transactions].
      rewrite keeps_self_datetime_now.
      split; [apply generator_ok_batch, H|].
      rewrite for_range_generate_self, for_range_length. reflexivity.
  - cbn. split; [exact H | lia].
  - unfold Api.stream_turn. destruct (Api.is_streaming sv).
    + unfold Api.lift. cbn [fst snd Api.state].
      rewrite !bind_run. unfold ret.
      unfold served; cbn [fst snd records Api.packet_transactions].
      rewrite keeps_self_datetime_now.
      split; [apply generator_ok_batch; destruct (Api.state sv); exact H|].
      rewrite for_range_generate_self, for_range_length.
      destruct (Api.state sv); reflexivity.
    + cbn. split; [exact H | lia].
  - unfold Api.start_streaming. destruct (Api.is_streaming sv); cbn;
      (split; [exact H | lia]).
  - cbn. split; [exact H | lia].
  - cbn. split; [exact H | lia].
Qed.

Lemma session_cons (r : Request) (rs : list Request) (sv : Api.Service) :
  session (r :: rs) sv
  = (fst (handle r sv) :: fst (session rs (snd (handle r sv))),
     snd (session rs (snd (handle r sv)))).
Proof.
  cbn [session]. destruct (handle r sv) as [x sv1]. cbn [fst snd].
  destruct (session rs sv1). reflexivity.
Qed.

Lemma session_generator (rs : list Request) :
  forall sv,
    generator_ok (self (Api.state sv)) ->
    generator_ok (self (Api.state (snd (session rs sv))))
    /\ transaction_counter (self (Api.state (snd (session rs sv))))
       = transaction_counter (self (Api.state sv))
         + Z.of_nat (total_served (fst (session rs sv))).
Proof.
  induction rs as [|r rs IH]; intros sv H.
  - cbn. split; [exact H | lia].
  - rewrite session_cons. cbn [fst snd].
    destruct (handle_generator r sv H) as [H1 H2].
    destruct (IH _ H1) as [H3 H4].
    split; [exact H3|]. rewrite H4, H2.
    unfold total_served, all_records, served. cbn [map concat].
    rewrite length_app.
    fold (all_records (fst (session rs (snd (handle r sv))))). lia.
Qed.

(** ** Identifiers across a session *)

Lemma counters_app (n m : nat) :
  forall c, counters c (n + m)
            = (counters c n ++ counters (c + Z.of_nat n) m)%list.
Proof.
  induction n as [|n IH]; intros c.
  - cbn [counters Nat.add app]. rewrite Z.add_0_r. reflexivity.
  - cbn [counters Nat.add app]. rewrite IH. do 3 f_equal. lia.
Qed.

Lemma served_id_model_dump (t : Transaction) :
  served_id (model_dump t) = Some (PyStr (transaction_id t)).
Proof. reflexivity. Qed.

Lemma batch_ids (n : nat) :
  forall s,
    map served_id
      (fst (for_range n
              (bind generate_transaction (fun t => ret (model_dump t))) s))
    = map id_entry (counters (transaction_counter (self s)) n).
Proof.
  induction n as [|n IH]; intros s.
  - reflexivity.
  - rewrite for_range_S. cbn [fst map counters]. rewrite IH.
    rewrite !bind_run. unfold ret. cbn [fst snd].
    rewrite generate_transaction_counter. f_equal.
    rewrite served_id_model_dump, generate_transaction_id. reflexivity.
Qed.

Lemma handle_ids (r : Request) (sv : Api.Service) :
  map served_id (records (fst (handle r sv)))
  = map id_entry
      (counters (transaction_counter (self (Api.state sv)))
         (served (fst (handle r sv)))).
Proof.
  unfold served.
  destruct r; unfold handle, respond; cbn [fst snd]; try reflexivity.
  - unfold Api.get_single_transaction, Api.lift. cbn [fst records].
    cbn [length counters map]. rewrite bind_run. unfold ret. cbn [fst].
    rewrite served_id_model_dump, generate_transaction_id. reflexivity.
  - unfold Api.get_transactions_batch, Api.lift.
    cbn [fst]. unfold get_transactions_batch.
    destruct (count >? 1000)%Z; [reflexivity|].
    rewrite !bind_run. unfold ret. cbn [fst records resp_transactions].
    rewrite for_range_length. apply batch_ids.
  - unfold Api.stream_turn. destruct (Api.is_streaming sv); [|reflexivity].
    unfold Api.lift. cbn [fst]. rewrite !bind_run. unfold ret.
    cbn [fst records Api.packet_transactions].
    rewrite for_range_length.
    rewrite batch_ids. destruct (Api.state sv); reflexivity.
Qed.

Lemma session_ids (rs : list Request) :
  forall sv,
    generator_ok (self (Api.state sv)) ->
    map served_id (all_records (fst (session rs sv)))
    = map id_entry
        (counters (transaction_counter (self (Api.state sv)))
           (total_served (fst (session rs sv)))).
Proof.
  induction rs as [|r rs IH]; intros sv H.
  - reflexivity.
  - rewrite session_cons. cbn [fst].
    unfold total_served, all_records. cbn [map concat].
    rewrite map_app, length_app, counters_app, map_app.
    destruct (handle_generator r sv H) as [H1 H2].
    fold (all_records (fst (session rs (snd (handle r sv))))).
    rewrite (IH _ H1), H2, handle_ids. reflexivity.
Qed.

Lemma id_entries_NoDup (n : nat) (c : Z) :
  List.NoDup (map id_entry (counters c n)).
Proof.
  pose proof (counters_ids_NoDup n c) as H.
  rewrite <- (map_map (fun k => "TXN_" +:+ format_0d 8 k)
                      (fun x => Some (PyStr x))).
  induction H as [|x l Hx Hl IH]; cbn [map]; constructor.
  - intros Hin. apply in_map_iff in Hin.
    destruct Hin as (y & [= ->] & Hy). contradiction.
  - exact IH.
Qed.

(** ** The service across a session *)

(** X10. Whatever requests a client makes, in whatever order, the records
    handed out by [/transaction], [/transactions/{count}] and the turns
    of [/stream] taken together carry the identifiers [TXN_00000001],
    [TXN_00000002], ... in the order in which they were served: no
    identifier is served twice and none is skipped. *)
Theorem session_identifiers_consecutive (rs : list Request) (w : World) :
  let xs := fst (session rs (Api.service_init w)) in
  map served_id (all_records xs)
  = map (fun k => Some (PyStr ("TXN_" +:+ format_0d 8 k)))
      (counters 1 (total_served xs))
  /\ List.NoDup (map served_id (all_records xs)).
Proof.
  cbn zeta.
  pose proof (session_ids rs (Api.service_init w) generator_ok_init) as H.
  cbn [Api.service_init Api.state self generator_init transaction_counter]
    in H.
  split.
  - exact H.
  - rewrite H. apply id_entries_NoDup.
Qed.

(** X11. [GET /status] reports as [transactions_generated] the number of
    records that the service has handed out since it started, over all
    endpoints; a rejected batch and the other requests do not count. *)
Theorem status_counts_served_records (rs : list Request) (w : World) :
  let xs := fst (session rs (Api.service_init w)) in
  let sv := snd (session rs (Api.service_init w)) in
  Api.status_transactions_generated (fst (Api.get_status sv))
  = Z.of_nat (total_served xs).
Proof.
  cbn zeta.
  destruct (session_generator rs (Api.service_init w) generator_ok_init)
    as [_ H].
  cbn [Api.get_status fst Api.status_transactions_generated].
  rewrite H. cbn. lia.
Qed.

(** X12. Whatever requests a client makes, [active_accounts] of
    [GET /status] is never more than [transactions_generated] and never
    more than 4000, the size of the account pool, and every tracked
    account is an account of the pool. *)
Theorem status_active_accounts_bounds (rs : list Request) (w : World) :
  let sv := snd (session rs (Api.service_init w)) in
  let status := fst (Api.get_status sv) in
  0 <= Api.status_active_accounts status
  /\ Api.status_active_accounts status
     <= Api.status_transactions_generated status
  /\ Api.status_active_accounts status <= 4000
  /\ forall a, is_Some (recent_activity (self (Api.state sv)) !! a) ->
               In a account_pool.
Proof.
  cbn zeta.
  destruct (session_generator rs (Api.service_init w) generator_ok_init)
    as [Hok _].
  pose proof (generator_ok_size _ Hok) as Hsize.
  destruct Hok as [Hle Hin].
  cbn [Api.get_status fst Api.status_transactions_generated
       Api.status_active_accounts].
  repeat split; try lia.
  intros a [l Hl]. apply (Hin a l Hl).
Qed.

(** ** The configuration and the streaming flag *)

Lemma generate_transaction_config (s : State) :
  current_config (snd (generate_transaction s)) = current_config s.
Proof.
  destruct (generate_transaction_run s) as (t0 & _ & _ & _ & H). exact H.
Qed.

Lemma batch_config (n : nat) :
  forall s,
    current_config
      (snd (for_range n
              (bind generate_transaction (fun t => ret (model_dump t))) s))
    = current_config s.
Proof.
  induction n as [|n IH]; intros s.
  - reflexivity.
  - rewrite for_range_S. cbn [snd]. rewrite IH, bind_run. unfold ret.
    cbn [snd]. apply generate_transaction_config.
Qed.

Lemma handle_config (r : Request) (sv : Api.Service) :
  is_post_config r = false ->
  current_config (Api.state (snd (handle r sv)))
  = current_config (Api.state sv).
Proof.
  intros H. destruct r; try discriminate H; unfold handle, respond;
    cbn [fst snd]; try reflexivity.
  - unfold Api.get_single_transaction, Api.lift. cbn [snd Api.state].
    rewrite bind_run. unfold ret. cbn [snd].
    apply generate_transaction_config.
  - unfold Api.get_transactions_batch, Api.lift. cbn [snd Api.state].
    unfold get_transactions_batch.
    destruct (count >? 1000)%Z; [reflexivity|].
    rewrite !bind_run. unfold ret. cbn [snd].
    change (current_config (snd (datetime_dot_now ?s)))
      with (current_config s).
    apply batch_config.
  - unfold Api.stream_turn. destruct (Api.is_streaming sv); [|reflexivity].
    unfold Api.lift. cbn [snd Api.state]. rewrite !bind_run. unfold ret.
    cbn [snd].
    change (current_config (snd (datetime_dot_now ?s)))
      with (current_config s).
    rewrite batch_config. destruct (Api.state sv); reflexivity.
  - unfold Api.start_streaming. destruct (Api.is_streaming sv); reflexivity.
Qed.

Lemma session_config (rs : list Request) :
  forall sv,
    forallb (fun r => negb (is_post_config r)) rs = true ->
    current_config (Api.state (snd (session rs sv)))
    = current_config (Api.state sv).
Proof.
  induction rs as [|r rs IH]; intros sv H.
  - reflexivity.
  - cbn [forallb] in H. apply andb_prop in H. destruct H as [Hr Hrs].
    rewrite session_cons. cbn [snd]. rewrite (IH _ Hrs).
    apply handle_config. destruct (is_post_config r); [discriminate|].
    reflexivity.
Qed.

(** X13. [POST /config] replaces the configuration as a whole and nothing
    else: [GET /config] then returns the posted values, the generator (its
    counter and its activity map) and the streaming flag are as before, and
    the posted configuration stays in force through any later requests
    other than [POST /config]. *)
Theorem config_update_round_trip (config : StreamConfig)
        (rs : list Request) (sv : Api.Service) :
  let sv' := snd (Api.update_config config sv) in
  fst (Api.get_config sv') = Api.config_dump config
  /\ self (Api.state sv') = self (Api.state sv)
  /\ Api.is_streaming sv' = Api.is_streaming sv
  /\ (forallb (fun r => negb (is_post_config r)) rs = true ->
      fst (Api.get_config (snd (session rs sv'))) = Api.config_dump config).
Proof.
  cbn zeta. repeat split.
  intros H. unfold Api.get_config. cbn [fst].
  rewrite (session_config rs _ H). reflexivity.
Qed.

Lemma config_update_round_trip_witness :
  fst (Api.get_config
         (snd (session [GetTransaction; GetTransactions 2; GetStatus]
                 (snd (Api.update_config (mkStreamConfig 2 (1 # 2) 7)
                         (Api.service_init (world_of [] 1 0)))))))
  = Api.config_dump (mkStreamConfig 2 (1 # 2) 7).
Proof.
  apply (config_update_round_trip (mkStreamConfig 2 (1 # 2) 7)
           [GetTransaction; GetTransactions 2; GetStatus]
           (Api.service_init (world_of [] 1 0))).
  reflexivity.
Defined.

(** X14. [POST /start] is refused with status 400 and changes nothing when
    the flag is set, so a second [POST /start] in a row, and a
    [POST /start] after a stream has begun, are always refused;
    [POST /stop] always clears the flag, after which [POST /start] is
    accepted and an open stream ends at its next turn.  Neither request
    touches the generator or the configuration. *)
Theorem start_stop_streaming (sv : Api.Service) :
  let refused :=
    HTTPException 400 "Stream is already running"
      : HTTPResult Api.MessageResponse in
  fst (Api.start_streaming (snd (Api.start_streaming sv))) = refused
  /\ snd (Api.start_streaming (snd (Api.start_streaming sv)))
     = snd (Api.start_streaming sv)
  /\ fst (Api.start_streaming (snd (Api.stream_begin sv))) = refused
  /\ Api.is_streaming (snd (Api.start_streaming sv)) = true
  /\ Api.is_streaming (snd (Api.stop_streaming sv)) = false
  /\ fst (Api.start_streaming (snd (Api.stop_streaming sv)))
     = HTTPOk (Api.mkMessageResponse "Transaction streaming started"
                 (Api.config_dump (current_config (Api.state sv))))
  /\ Api.stream_turn (snd (Api.stop_streaming sv))
     = (None, snd (Api.stop_streaming sv))
  /\ Api.state (snd (Api.start_streaming sv)) = Api.state sv
  /\ Api.state (snd (Api.stop_streaming sv)) = Api.state sv.
Proof.
  cbn zeta. destruct sv as [[|] st]; repeat split.
Qed.

(** X15. A turn of an open stream whose flag is set yields a packet of
    [batch_size] records of the configuration in force at that turn, with
    no upper limit (the limit of 1000 is the batch endpoint's), moves the
    counter by as many and leaves the flag set; with a batch size of zero
    or less the packet is empty and the generator is as before. *)
Theorem stream_turn_packet (sv : Api.Service) :
  let n := batch_size (current_config (Api.state sv)) in
  Api.is_streaming sv = true ->
  exists packet,
    fst (Api.stream_turn sv) = Some packet
    /\ length (Api.packet_transactions packet) = Z.to_nat n
    /\ transaction_counter (self (Api.state (snd (Api.stream_turn sv))))
       = transaction_counter (self (Api.state sv)) + Z.of_nat (Z.to_nat n)
    /\ Api.is_streaming (snd (Api.stream_turn sv)) = true
    /\ (n <= 0 ->
        Api.packet_transactions packet = []
        /\ self (Api.state (snd (Api.stream_turn sv)))
           = self (Api.state sv)).
Proof.
  cbn zeta. intros Hflag. unfold Api.stream_turn. rewrite Hflag.
  unfold Api.lift. cbn [fst snd Api.state Api.is_streaming].
  rewrite !bind_run. unfold ret. cbn [fst snd].
  eexists. split; [reflexivity|].
  cbn [Api.packet_transactions].
  rewrite keeps_self_datetime_now, for_range_length,
    for_range_generate_self.
  assert (Hcfg : fst (get_config (Api.state sv))
                 = current_config (Api.state sv))
    by (destruct (Api.state sv); reflexivity).
  assert (Hst : snd (get_config (Api.state sv)) = Api.state sv)
    by (destruct (Api.state sv); reflexivity).
  rewrite Hcfg, Hst.
  split; [reflexivity|]. split; [reflexivity|]. split; [exact Hflag|].
  intros H. rewrite (Z2Nat.nonpos _ H). split; reflexivity.
Qed.

Lemma stream_turn_packet_witness :
  exists packet,
    fst (Api.stream_turn
           (Api.mkService true
              (state_of (mkStreamConfig 1 (5 # 100) 1500)
                 (world_of [] 1 0))))
    = Some packet
    /\ length (Api.packet_transactions packet) = 1500%nat.
Proof.
  destruct (stream_turn_packet
              (Api.mkService true
                 (state_of (mkStreamConfig 1 (5 # 100) 1500)
                    (world_of [] 1 0)))
              eq_refl) as (packet & H1 & H2 & _).
  exists packet. split; [exact H1|]. exact H2.
Defined.

(** X16. The configuration is not validated, and an injection rate outside
    [0, 1] acts as the nearer end: with a rate of 1 or more every record
    is fraudulent, with a rate of 0 or less none is. *)
Theorem injection_rate_out_of_range (s : State) :
  let rate := fraud_injection_rate (current_config s) in
  let t := fst (generate_transaction s) in
  ((1 <= rate)%Q -> is_fraud t = true /\ fraud_type t <> None)
  /\ ((rate <= 0)%Q -> is_fraud t = false /\ fraud_type t = None).
Proof.
  cbn zeta. pose proof (random_random_range s) as Hu.
  destruct (generate_transaction_label s) as [Hyes Hno]. cbn zeta in *.
  split; intros H.
  - destruct Hyes as [H1 H2]; [apply Qltb_lt; lra|].
    split; [exact H1|]. rewrite H2. discriminate.
  - apply Hno, Qltb_ge. lra.
Qed.

Lemma injection_rate_out_of_range_witness :
  is_fraud (fst (generate_transaction
                   (state_of (mkStreamConfig 1 (5 # 2) 1)
                      (world_of [2 ^ 53 - 1] 1 0)))) = true
  /\ is_fraud (fst (generate_transaction
                      (state_of (mkStreamConfig 1 (- (1)) 1)
                         (world_of [] 1 0)))) = false.
Proof.
  split.
  - apply (injection_rate_out_of_range
             (state_of (mkStreamConfig 1 (5 # 2) 1)
                (world_of [2 ^ 53 - 1] 1 0))).
    vm_compute. discriminate.
  - apply (injection_rate_out_of_range
             (state_of (mkStreamConfig 1 (- (1)) 1) (world_of [] 1 0))).
    vm_compute. discriminate.
Defined.

(** ** The export *)

Lemma writerow_to_dict (t : Transaction) :
  Csv.writerow (to_dict t) = Some (csv_row t).
Proof. destruct t. reflexivity. Qed.

Lemma write_rows_run (num_transactions : Z) (indices : list Z) :
  forall s,
    Csv.write_rows num_transactions indices s
    = (Some (map csv_row
               (fst (for_range (length indices) generate_transaction s)),
             progress_lines num_transactions indices),
       snd (for_range (length indices) generate_transaction s)).
Proof.
  induction indices as [|i indices IH]; intros s.
  - reflexivity.
  - cbn [Csv.write_rows length]. rewrite bind_run, writerow_to_dict.
    rewrite bind_run, IH, for_range_S. unfold ret. reflexivity.
Qed.

Lemma for_range_generate_config (n : nat) :
  forall s,
    current_config (snd (for_range n generate_transaction s))
    = current_config s.
Proof.
  induction n as [|n IH]; intros s.
  - reflexivity.
  - rewrite for_range_S. cbn [snd]. rewrite IH.
    apply generate_transaction_config.
Qed.

(** The export in closed form: it never raises. *)
Lemma generate_csv_file_run (num_transactions : Z) (filename : string)
      (w : World) :
  let n := Z.to_nat num_transactions in
  let run := for_range n generate_transaction (state_of default_config w) in
  let fraud_count := Csv.py_int (inject_Z num_transactions * (5 # 100)) in
  Csv.generate_csv_file num_transactions filename w
  = (Some (Csv.mkCsvFile Csv.fieldnames (map csv_row (fst run)),
           ([Csv.Generating num_transactions]
            ++ progress_lines num_transactions (range 0 num_transactions)
            ++ [Csv.Created filename num_transactions;
                Csv.SummaryTitle;
                Csv.SummaryTotal num_transactions;
                Csv.SummaryFraud fraud_count ((5 # 100) * 100);
                Csv.SummaryNormal (num_transactions - fraud_count)])%list),
     world (snd run)).
Proof.
  cbn zeta. unfold Csv.generate_csv_file. rewrite write_rows_run.
  unfold range. rewrite range_from_length, Z.sub_0_r.
  fold (state_of default_config w).
  rewrite for_range_generate_config. reflexivity.
Qed.

Lemma csv_row_length (t : Transaction) :
  length (csv_row t) = length Csv.fieldnames.
Proof. reflexivity. Qed.

Lemma csv_row_id (t : Transaction) :
  nth_error (csv_row t) 0 = Some (PyStr (transaction_id t)).
Proof. reflexivity. Qed.

(** X17. [generate_csv_file] never fails on a row (every key of [to_dict]
    is a field name): whatever the number asked for, the file has the
    seventeen field names as its header and one row of seventeen cells per
    transaction, none when the number is zero or less.  The first cells of
    the rows are the identifiers [TXN_00000001], [TXN_00000002], ... : every
    export starts again at 1, since it constructs its own generator. *)
Theorem csv_export_rows (num_transactions : Z) (filename : string)
        (w : World) :
  exists rows printed,
    fst (Csv.generate_csv_file num_transactions filename w)
    = Some (Csv.mkCsvFile Csv.fieldnames rows, printed)
    /\ length rows = Z.to_nat num_transactions
    /\ Forall (fun row => length row = 17%nat) rows
    /\ map (fun row => nth_error row 0) rows
       = map (fun k => Some (PyStr ("TXN_" +:+ format_0d 8 k)))
           (counters 1 (Z.to_nat num_transactions)).
Proof.
  rewrite generate_csv_file_run. cbn [fst].
  eexists. eexists. split; [reflexivity|].
  split; [rewrite length_map; apply for_range_length|].
  split.
  - apply List.Forall_forall. intros row Hrow.
    apply in_map_iff in Hrow. destruct Hrow as (t & <- & _).
    apply csv_row_length.
  - rewrite map_map.
    rewrite (map_ext _ (fun t => Some (PyStr (transaction_id t))))
      by (intros t; apply csv_row_id).
    rewrite <- (map_map transaction_id (fun x => Some (PyStr x))).
    destruct (generate_transactions_ids (Z.to_nat num_transactions)
                (state_of default_config w)) as [H _].
    rewrite H, map_map. reflexivity.
Qed.

Lemma csv_row_labels (t : Transaction) :
  label_cells (csv_row t)
  = Some (PyBool (is_fraud t),
          PyStr (match fraud_type t with
                 | Some f => if String.eqb f "" then "normal" else f
                 | None => "normal"
                 end)).
Proof. reflexivity. Qed.

Lemma generated_label (s : State) :
  let t := fst (generate_transaction s) in
  (is_fraud t = false /\ fraud_type t = None)
  \/ (is_fraud t = true
      /\ exists f, In f fraud_types /\ fraud_type t = Some f).
Proof.
  cbn zeta. destruct (generate_transaction_label s) as [Hyes Hno].
  cbn zeta in *.
  destruct (Qltb (fst (random_random s))
              (fraud_injection_rate (current_config s))).
  - right. destruct (Hyes eq_refl) as [H1 H2]. split; [exact H1|].
    eexists. split; [|exact H2]. apply archetype_of_In.
  - left. apply Hno. reflexivity.
Qed.

(** X18. In every row of an export the two label cells agree: [is_fraud] is
    a boolean, [fraud_type] is "normal" or one of the four archetype names,
    and [is_fraud] is true exactly when [fraud_type] is not "normal". *)
Theorem csv_export_labels (num_transactions : Z) (filename : string)
        (w : World) :
  exists rows printed,
    fst (Csv.generate_csv_file num_transactions filename w)
    = Some (Csv.mkCsvFile Csv.fieldnames rows, printed)
    /\ Forall (fun row =>
                 exists b f,
                   label_cells row = Some (PyBool b, PyStr f)
                   /\ In f ("normal" :: fraud_types)
                   /\ (b = true <-> f <> "normal")) rows.
Proof.
  rewrite generate_csv_file_run. cbn [fst].
  eexists. eexists. split; [reflexivity|].
  apply Forall_map.
  apply (for_range_Forall (fun _ => True)); [|exact I].
  intros s _. split; [|exact I].
  rewrite csv_row_labels. eexists. eexists. split; [reflexivity|].
  destruct (generated_label s) as [[H1 H2] | (H1 & f & Hin & H2)];
    cbn zeta in *; rewrite H1, H2.
  - split; [left; reflexivity|]. split; [discriminate|].
    intros H; contradiction H; reflexivity.
  - destruct Hin as [<- | [<- | [<- | [<- | []]]]]; cbn;
      (split; [tauto|]); split; try discriminate; reflexivity.
Qed.

Lemma progress_lines_cons (n i : Z) (indices : list Z) :
  progress_lines n (i :: indices)
  = ((if ((i + 1) mod 100 =? 0)%Z then [Csv.Progress (i + 1) n] else [])
     ++ progress_lines n indices)%list.
Proof. reflexivity. Qed.

Lemma progress_lines_count (n : Z) (m : nat) :
  forall a, 0 <= a ->
    Z.of_nat (length (progress_lines n (range_from a m)))
    = (a + Z.of_nat m) / 100 - a / 100.
Proof.
  induction m as [|m IH]; intros a Ha.
  - cbn [range_from]. cbn. rewrite Z.add_0_r. lia.
  - cbn [range_from]. rewrite progress_lines_cons, length_app, Nat2Z.inj_add.
    rewrite (IH (a + 1)) by lia.
    replace (a + 1 + Z.of_nat m) with (a + Z.of_nat (S m)) by lia.
    destruct ((a + 1) mod 100 =? 0)%Z eqn:E; cbn [length].
    + apply Z.eqb_eq in E. Z.div_mod_to_equations. lia.
    + apply Z.eqb_neq in E. Z.div_mod_to_equations. lia.
Qed.

Lemma progress_lines_filter (n : Z) (indices : list Z) :
  List.filter is_progress (progress_lines n indices)
  = progress_lines n indices.
Proof.
  induction indices as [|i indices IH]; [reflexivity|].
  rewrite progress_lines_cons, List.filter_app, IH.
  destruct ((i + 1) mod 100 =? 0)%Z; reflexivity.
Qed.

(** X19. An export prints one progress line for every full hundred of
    rows: [num_transactions / 100] lines for a non-negative number of
    transactions. *)
Theorem csv_export_progress (num_transactions : Z) (filename : string)
        (w : World) :
  0 <= num_transactions ->
  exists file printed,
    fst (Csv.generate_csv_file num_transactions filename w)
    = Some (file, printed)
    /\ Z.of_nat (length (List.filter is_progress printed))
       = num_transactions / 100.
Proof.
  intros Hn. rewrite generate_csv_file_run. cbn [fst].
  eexists. eexists. split; [reflexivity|].
  rewrite !List.filter_app, progress_lines_filter.
  cbn [List.filter is_progress app]. rewrite app_nil_r.
  unfold range. rewrite progress_lines_count by lia.
  rewrite Z2Nat.id by lia.
  replace (0 + (num_transactions - 0)) with num_transactions by lia.
  rewrite Zdiv_0_l. lia.
Qed.

Lemma csv_export_progress_witness :
  exists file printed,
    fst (Csv.generate_csv_file 250 "banking_transactions.csv"
           (world_of [] 1 0))
    = Some (file, printed)
    /\ Z.of_nat (length (List.filter is_progress printed)) = 250 / 100.
Proof.
  apply (csv_export_progress 250 "banking_transactions.csv"
           (world_of [] 1 0)).
  lia.
Defined.

(** ** Dicts *)

Lemma dict_get_set_eq (k : string) (v : pyvalue) (d : Producer.dict) :
  Producer.dict_get k (Producer.dict_set k v d) = Some v.
Proof.
  induction d as [|[k' v'] d IH]; cbn.
  - rewrite String.eqb_refl. reflexivity.
  - destruct (String.eqb k k') eqn:E; cbn; rewrite E; [reflexivity|exact IH].
Qed.

Lemma dict_get_set_ne (k k' : string) (v : pyvalue) (d : Producer.dict) :
  k <> k' ->
  Producer.dict_get k (Producer.dict_set k' v d) = Producer.dict_get k d.
Proof.
  intros Hne. induction d as [|[k0 v0] d IH]; cbn.
  - apply String.eqb_neq in Hne. rewrite Hne. reflexivity.
  - destruct (String.eqb k' k0) eqn:E; cbn.
    + apply String.eqb_eq in E. subst k0.
      apply String.eqb_neq in Hne. rewrite Hne. reflexivity.
    + rewrite IH. reflexivity.
Qed.

Lemma dict_set_keys (k : string) (v : pyvalue) (d : Producer.dict) :
  map fst (Producer.dict_set k v d)
  = if existsb (String.eqb k) (map fst d) then map fst d
    else (map fst d ++ [k])%list.
Proof.
  induction d as [|[k' v'] d IH]; cbn; [reflexivity|].
  destruct (String.eqb k k') eqn:E; cbn; [reflexivity|].
  rewrite IH. destruct (existsb _ _); reflexivity.
Qed.

(** Enrichment of a record of the service, in closed form. *)
Lemma enrich_model_dump (producer : Producer.VPBankKinesisProducer)
      (now : string) (t : Transaction) :
  Producer.enrich_transaction producer now (model_dump t)
  = Producer.Return (model_dump t ++ enrichment producer now t)%list.
Proof.
  destruct t. unfold Producer.enrich_transaction, enrichment. cbn.
  reflexivity.
Qed.

Lemma enrich_to_dict (producer : Producer.VPBankKinesisProducer)
      (now : string) (t : Transaction) :
  Producer.enrich_transaction producer now (to_dict t)
  = Producer.Return (to_dict t ++ enrichment producer now t)%list.
Proof.
  destruct t. unfold Producer.enrich_transaction, enrichment. cbn.
  reflexivity.
Qed.

(** ** The relay on records of the service *)

Lemma enriched_entries (producer : Producer.VPBankKinesisProducer)
      (now : string) (t : Transaction) :
  let r := Producer.enrich_transaction producer now (model_dump t) in
  enriched_entry "high_amount_flag" r
  = Some (PyBool (Qltb 300000000 (transaction_amount_vnd t)))
  /\ enriched_entry "off_hours_flag" r
     = Some (PyBool (existsb (Z.eqb (transaction_hour t))
                       [1; 2; 3; 22; 23; 24]))
  /\ enriched_entry "suspicious_device_flag" r
     = Some (PyBool (Producer.str_in "DEV_NEW_" (device_id t)))
  /\ enriched_entry "high_frequency_flag" r
     = Some (PyBool (10 <? transaction_frequency_5min t)%Z).
Proof.
  cbn zeta. rewrite enrich_model_dump. repeat split.
Qed.

(** X20. On a record as the service returns it, and on one as the export
    writes it, [enrich_transaction] never raises: it returns the fields of
    the record unchanged and in their order, followed by the timestamp of
    the relay, the source, the region and the stream, and the four flags:
    amount above 300,000,000, hour among 1, 2, 3, 22, 23 and 24, "DEV_NEW_"
    inside the device identifier, frequency above 10. *)
Theorem enrich_service_record (producer : Producer.VPBankKinesisProducer)
        (now : string) (t : Transaction) :
  let flags :=
    [("kinesis_timestamp", PyStr now);
     ("source", PyStr "vpbank_transaction_api");
     ("region", PyStr (Producer.region producer));
     ("stream_name", PyStr (Producer.stream_name producer));
     ("high_amount_flag",
      PyBool (Qltb 300000000 (transaction_amount_vnd t)));
     ("off_hours_flag",
      PyBool (existsb (Z.eqb (transaction_hour t)) [1; 2; 3; 22; 23; 24]));
     ("suspicious_device_flag",
      PyBool (Producer.str_in "DEV_NEW_" (device_id t)));
     ("high_frequency_flag", PyBool (10 <? transaction_frequency_5min t)%Z)]
  in
  Producer.enrich_transaction producer now (model_dump t)
  = Producer.Return (model_dump t ++ flags)%list
  /\ Producer.enrich_transaction producer now (to_dict t)
     = Producer.Return (to_dict t ++ flags)%list.
Proof.
  cbn zeta. split; [apply enrich_model_dump | apply enrich_to_dict].
Qed.



(** X22. [enrich_transaction] needs the amount and the hour and nothing
    else: without [transaction_amount_vnd] it raises [KeyError] for that
    key, with an amount but without [transaction_hour] it raises
    [KeyError] for the hour, an amount that is a string raises
    [TypeError]; a transaction that has a numeric amount and an hour but
    neither [device_id] nor [transaction_frequency_5min] is enriched, with
    both of the flags that read them false. *)
Theorem enrich_missing_keys (producer : Producer.VPBankKinesisProducer)
        (now : string) (transaction : Producer.dict) :
  let r := Producer.enrich_transaction producer now transaction in
  (Producer.dict_get "transaction_amount_vnd" transaction = None ->
   r = Producer.Raise (Producer.KeyError "transaction_amount_vnd"))
  /\ (forall x,
        Producer.dict_get "transaction_amount_vnd" transaction
        = Some (PyFloat x) ->
        Producer.dict_get "transaction_hour" transaction = None ->
        r = Producer.Raise (Producer.KeyError "transaction_hour"))
  /\ (forall text,
        Producer.dict_get "transaction_amount_vnd" transaction
        = Some (PyStr text) ->
        r = Producer.Raise Producer.TypeError)
  /\ (forall x h,
        Producer.dict_get "transaction_amount_vnd" transaction
        = Some (PyFloat x) ->
        Producer.dict_get "transaction_hour" transaction = Some (PyInt h) ->
        Producer.dict_get "device_id" transaction = None ->
        Producer.dict_get "transaction_frequency_5min" transaction = None ->
        enriched_entry "suspicious_device_flag" r = Some (PyBool false)
        /\ enriched_entry "high_frequency_flag" r = Some (PyBool false)).
Proof.
  cbn zeta. unfold Producer.enrich_transaction, Producer.subscript,
    Producer.get_or.
  split; [|split; [|split]].
  - intros H. rewrite H. reflexivity.
  - intros x Ha Hh. rewrite Ha, Hh. reflexivity.
  - intros text Ha. rewrite Ha. reflexivity.
  - intros x h Ha Hh Hd Hf. rewrite Ha, Hh, Hd, Hf.
    cbn [Producer.result_bind Producer.py_gt Producer.py_str_in
         enriched_entry].
    split.
    + rewrite dict_get_set_ne by discriminate. apply dict_get_set_eq.
    + apply dict_get_set_eq.
Qed.

Lemma enrich_missing_keys_witness :
  Producer.enrich_transaction a_producer "2025-01-01T05:00:00+00:00" []
  = Producer.Raise (Producer.KeyError "transaction_amount_vnd")
  /\ enriched_entry "high_frequency_flag"
       (Producer.enrich_transaction a_producer "2025-01-01T05:00:00+00:00"
          foreign_transaction)
     = Some (PyBool false).
Proof.
  split.
  - apply (enrich_missing_keys a_producer "2025-01-01T05:00:00+00:00" []).
    reflexivity.
  - apply (enrich_missing_keys a_producer "2025-01-01T05:00:00+00:00"
             foreign_transaction) with (x := 5%Q) (h := 3); reflexivity.
Defined.

Lemma device_pool_not_suspicious (d : string) :
  In d device_pool -> Producer.str_in "DEV_NEW_" d = false.
Proof.
  assert (H : forallb (fun d => negb (Producer.str_in "DEV_NEW_" d))
                device_pool = true) by (vm_compute; reflexivity).
  rewrite forallb_forall in H. intros Hd. specialize (H d Hd).
  destruct (Producer.str_in "DEV_NEW_" d); [discriminate H|reflexivity].
Qed.

Lemma new_device_suspicious (x : string) :
  Producer.str_in "DEV_NEW_" ("DEV_NEW_" +:+ x) = true.
Proof. cbn. destruct x; reflexivity. Qed.

(** X23. For a record generated by the service the relay sets
    [suspicious_device_flag] exactly when the record is an account
    takeover or a loan fraud: the devices of the pool never contain
    "DEV_NEW_", the devices those two archetypes make up always do. *)
Theorem suspicious_device_flag_marks_new_devices
        (producer : Producer.VPBankKinesisProducer) (now : string)
        (s : State) :
  let t := fst (generate_transaction s) in
  enriched_entry "suspicious_device_flag"
    (Producer.enrich_transaction producer now (model_dump t))
  = Some (PyBool true)
  <-> (fraud_type t = Some "account_takeover"
       \/ fraud_type t = Some "loan_fraud").
Proof.
  cbn zeta.
  destruct (enriched_entries producer now (fst (generate_transaction s)))
    as (_ & _ & H & _). cbn zeta in H. rewrite H. clear H.
  destruct (generate_transaction_fields s) as [_ Hf].
  destruct Hf as [[E H] | [[E H] | [[E H] | [[E H] | [E H]]]]]; rewrite E.
  - destruct H as (_ & _ & Hd & _).
    rewrite (device_pool_not_suspicious _ Hd).
    split; [discriminate | intros [[=] | [=]]].
  - destruct H as (_ & _ & _ & Hd & _).
    rewrite (device_pool_not_suspicious _ Hd).
    split; [discriminate | intros [[=] | [=]]].
  - destruct H as (_ & _ & _ & (k & _ & Hd) & _).
    rewrite Hd, new_device_suspicious. split; auto.
  - destruct H as (_ & _ & (k & _ & Hd) & _).
    rewrite Hd, new_device_suspicious. split; auto.
  - destruct H as (_ & _ & Hd & _).
    rewrite (device_pool_not_suspicious _ Hd).
    split; [discriminate | intros [[=] | [=]]].
Qed.

(** X24. The relay sets [off_hours_flag] on every money-laundering record
    of the service.  On an account-takeover record it sets the flag unless
    the hour is 4, which is one of the hours that archetype draws but not
    one of the relay's off hours; such a record exists. *)
Theorem off_hours_flag_by_archetype
        (producer : Producer.VPBankKinesisProducer) (now : string) :
  (forall s : State,
     let t := fst (generate_transaction s) in
     let flag := enriched_entry "off_hours_flag"
                   (Producer.enrich_transaction producer now (model_dump t)) in
     (fraud_type t = Some "money_laundering" -> flag = Some (PyBool true))
     /\ (fraud_type t = Some "account_takeover" ->
         (flag = Some (PyBool false) <-> transaction_hour t = 4)))
  /\ (exists s : State,
        let t := fst (generate_transaction s) in
        fraud_type t = Some "account_takeover"
        /\ enriched_entry "off_hours_flag"
             (Producer.enrich_transaction producer now (model_dump t))
           = Some (PyBool false)).
Proof.
  split.
  - intros s. cbn zeta.
    destruct (enriched_entries producer now (fst (generate_transaction s)))
      as (_ & H & _). cbn zeta in H. rewrite H. clear H.
    destruct (generate_transaction_fields s) as [_ Hf].
    apply archetype_fields_of in Hf.
    destruct Hf as (_ & Hml & Hat & _). split; intros E.
    + destruct (Hml E) as (_ & Hh & _). cbn [In] in Hh.
      destruct Hh as [<- | [<- | [<- | [<- | [<- | []]]]]]; reflexivity.
    + destruct (Hat E) as (_ & Hh & _). cbn [In] in Hh.
      destruct Hh as [<- | [<- | [<- | [<- | [<- | []]]]]]; cbn;
        split; first [discriminate | reflexivity | intros; lia].
  - exists state_takeover_at_four. cbn zeta.
    destruct (enriched_entries producer now
                (fst (generate_transaction state_takeover_at_four)))
      as (_ & H & _). cbn zeta in H. rewrite H.
    split; vm_compute; reflexivity.
Qed.

Lemma off_hours_flag_by_archetype_witness :
  enriched_entry "off_hours_flag"
    (Producer.enrich_transaction a_producer "2025-01-01T05:00:00+00:00"
       (model_dump (fst (generate_transaction state_money_laundering))))
  = Some (PyBool true).
Proof.
  destruct (proj1 (off_hours_flag_by_archetype a_producer
                     "2025-01-01T05:00:00+00:00") state_money_laundering)
    as [H _].
  apply H. vm_compute. reflexivity.
Defined.

(** X25. The relay never sets [high_amount_flag] on a fee-manipulation
    record of the service.  On a money-laundering record it sets the flag
    unless the amount is exactly 300,000,000, the low end of that
    archetype's range, which the comparison [>] leaves out; such a record
    exists. *)
Theorem high_amount_flag_by_archetype
        (producer : Producer.VPBankKinesisProducer) (now : string) :
  (forall s : State,
     let t := fst (generate_transaction s) in
     let flag := enriched_entry "high_amount_flag"
                   (Producer.enrich_transaction producer now (model_dump t)) in
     (fraud_type t = Some "fee_manipulation" -> flag = Some (PyBool false))
     /\ (fraud_type t = Some "money_laundering" ->
         (flag = Some (PyBool false)
          <-> (transaction_amount_vnd t == 300000000)%Q)))
  /\ (exists s : State,
        let t := fst (generate_transaction s) in
        fraud_type t = Some "money_laundering"
        /\ enriched_entry "high_amount_flag"
             (Producer.enrich_transaction producer now (model_dump t))
           = Some (PyBool false)).
Proof.
  split.
  - intros s. cbn zeta.
    destruct (enriched_entries producer now (fst (generate_transaction s)))
      as (H & _). cbn zeta in H. rewrite H. clear H.
    destruct (generate_transaction_fields s) as [_ Hf].
    apply archetype_fields_of in Hf.
    destruct Hf as (_ & Hml & _ & _ & Hfee). split; intros E.
    + destruct (Hfee E) as ([_ Hhi] & _).
      assert (Hb : Qltb 300000000
                     (transaction_amount_vnd (fst (generate_transaction s)))
                   = false) by (apply Qltb_ge; lra).
      rewrite Hb. reflexivity.
    + destruct (Hml E) as ([Hlo _] & _).
      destruct (Qltb 300000000
                  (transaction_amount_vnd (fst (generate_transaction s))))
        eqn:Hb.
      * apply Qltb_lt in Hb. split; [discriminate|]. intros Heq. lra.
      * apply Qltb_ge in Hb. split; [|reflexivity]. intros _. lra.
  - exists state_money_laundering. cbn zeta.
    destruct (enriched_entries producer now
                (fst (generate_transaction state_money_laundering)))
      as (H & _). cbn zeta in H. rewrite H.
    split; vm_compute; reflexivity.
Qed.

Lemma high_amount_flag_by_archetype_witness :
  enriched_entry "high_amount_flag"
    (Producer.enrich_transaction a_producer "2025-01-01T05:00:00+00:00"
       (model_dump (fst (generate_transaction state_fee_manipulation))))
  = Some (PyBool false).
Proof.
  destruct (proj1 (high_amount_flag_by_archetype a_producer
                     "2025-01-01T05:00:00+00:00") state_fee_manipulation)
    as [H _].
  apply H. vm_compute. reflexivity.
Defined.

(** X26. The fraud count of the relay is zero on any batch of records as
    the service returns them, which carry no [is_fraud] entry; on the rows
    of the export it is the number of records labelled fraudulent. *)
Theorem fraud_count_of_service_records (ts : list Transaction) :
  Producer.fraud_count (map model_dump ts) = 0
  /\ Producer.fraud_count (map to_dict ts)
     = Z.of_nat (length (List.filter is_fraud ts)).
Proof.
  unfold Producer.fraud_count. split.
  - induction ts as [|t ts IH]; [reflexivity|].
    cbn [map List.filter]. exact IH.
  - induction ts as [|t ts IH]; [reflexivity|].
    cbn [map List.filter].
    change (Producer.truthy
              (Producer.get_or (to_dict t) "is_fraud" (PyBool false)))
      with (is_fraud t).
    destruct (is_fraud t); cbn [length]; lia.
Qed.
